(** * Model abstraction and factory layer of the tkinter AI GUI

    A shallow embedding of [base_classes.py] and [ai_models.py]: the two
    decorators, the abstract base with its two mixins, the text and image
    model classes and [ModelFactory], followed by the properties of
    [process_input], [create_model] and [get_available_models].

    Conventions of the embedding.
    - A Python [str] is a Rocq [string], one [ascii] per code point; the
      model therefore covers the code points below 256 (Latin-1), on which
      [str.lower], [str.strip] and [len] are modelled exactly.
    - Methods run in a state-and-exception monad over the attributes of
      [self] and a trace of the calls made to the outside world.
    - Exceptions are instances of Python's [Exception] class, the ones an
      [except Exception] clause catches.
    - [os.path] is [posixpath].
    - [str] of an [int] is refused above 4300 digits, the interpreter's
      default limit.
    - [sys.stdout] is open; it encodes in UTF-8 or in ASCII with strict
      error handling, so [print] fails on the lines ASCII cannot hold. *)

From Stdlib Require Import Bool Arith NArith ZArith QArith List Ascii String Lia.
From Stdlib Require Import DecimalString.
Import ListNotations.
Close Scope Q_scope.
Open Scope string_scope.

(* ===================================================================== *)
(** ** Python strings *)
(* ===================================================================== *)

Module PyStr.

(** [c.isspace()] for a code point below 256: TAB..CR, FS..US, space,
    NEL (0x85) and NBSP (0xA0). *)
Definition isspace (c : ascii) : bool :=
  let n := N_of_ascii c in
  (((9 <=? n) && (n <=? 13)) || ((28 <=? n) && (n <=? 32))
   || (n =? 133) || (n =? 160))%N.

(** [c.lower()] for a code point below 256: A..Z and the accented capitals
    0xC0..0xDE (the multiplication sign 0xD7 apart) move up by 32. *)
Definition lower_char (c : ascii) : ascii :=
  let n := N_of_ascii c in
  if (((65 <=? n) && (n <=? 90))
      || ((192 <=? n) && (n <=? 222) && negb (n =? 215)))%N
  then ascii_of_N (n + 32) else c.

(** [s.lower()] *)
Fixpoint lower (s : string) : string :=
  match s with
  | EmptyString => EmptyString
  | String c t => String (lower_char c) (lower t)
  end.

(** [s.lstrip()] *)
Fixpoint lstrip (s : string) : string :=
  match s with
  | EmptyString => EmptyString
  | String c t => if isspace c then lstrip t else s
  end.

(** [s.rstrip()] *)
Fixpoint rstrip (s : string) : string :=
  match s with
  | EmptyString => EmptyString
  | String c t =>
      match rstrip t with
      | EmptyString => if isspace c then EmptyString else String c EmptyString
      | r => String c r
      end
  end.

(** [s.strip()] *)
Definition strip (s : string) : string := rstrip (lstrip s).

(** [s.replace(old, new)] for one-character [old] and [new]. *)
Fixpoint replace (old new : ascii) (s : string) : string :=
  match s with
  | EmptyString => EmptyString
  | String c t =>
      String (if Ascii.eqb c old then new else c) (replace old new t)
  end.

(** [sub in s] *)
Fixpoint contains (sub s : string) : bool :=
  String.prefix sub s
  || match s with
     | EmptyString => false
     | String _ t => contains sub t
     end.

(** [s.endswith(suf)]: compare the last [len(suf)] characters. *)
Definition endswith (s suf : string) : bool :=
  let n := String.length s in
  let k := String.length suf in
  Nat.leb k n && String.eqb (String.substring (n - k) k s) suf.

(** [any(s.endswith(f) for f in fmts)] *)
Definition any_endswith (s : string) (fmts : list string) : bool :=
  existsb (endswith s) fmts.

(** [posixpath.basename(p)]: what follows the last slash. *)
Fixpoint basename (p : string) : string :=
  match p with
  | EmptyString => EmptyString
  | String c t =>
      if contains "/" t then basename t
      else if Ascii.eqb c "/" then t
      else p
  end.

(** [s * n] *)
Fixpoint mul (s : string) (n : nat) : string :=
  match n with
  | O => EmptyString
  | S k => s ++ mul s k
  end.

(** [str(z)] for an [int] *)
Definition str_of_int (z : Z) : string :=
  NilZero.string_of_int (Z.to_int z).

(** The number of decimal digits of [z], its sign apart. *)
Definition digits (z : Z) : nat := String.length (str_of_int (Z.abs z)).

(** A code point below 128. *)
Definition is_ascii (c : ascii) : bool := (N_of_ascii c <? 128)%N.

(** One hexadecimal digit, in lower case. *)
Definition hex_digit (n : N) : ascii :=
  if (n <? 10)%N then ascii_of_N (48 + n) else ascii_of_N (87 + n).

(** The escape [\xNN] of a code point below 256. *)
Definition hex_escape (c : ascii) : string :=
  String "\" (String "x"
    (String (hex_digit (N_of_ascii c / 16))
       (String (hex_digit (N_of_ascii c mod 16)) EmptyString))).

(** [b.lower()] for [bytes]: the letters A..Z only. *)
Fixpoint lower_bytes (b : string) : string :=
  match b with
  | EmptyString => EmptyString
  | String c t =>
      String (let n := N_of_ascii c in
              if ((65 <=? n) && (n <=? 90))%N then ascii_of_N (n + 32) else c)
             (lower_bytes t)
  end.

(** [c in b] for a byte and [bytes] *)
Fixpoint has_byte (c : ascii) (b : string) : bool :=
  match b with
  | EmptyString => false
  | String d t => Ascii.eqb d c || has_byte c t
  end.

(** The body of [repr(b)] for [bytes], between the quotes. *)
Fixpoint bytes_repr_body (quote : ascii) (b : string) : string :=
  match b with
  | EmptyString => EmptyString
  | String c t =>
      (if Ascii.eqb c quote || Ascii.eqb c "\" then String "\" (String c "")
       else if Ascii.eqb c "009" then String "\" "t"
       else if Ascii.eqb c "010" then String "\" "n"
       else if Ascii.eqb c "013" then String "\" "r"
       else if ((N_of_ascii c <? 32) || (127 <=? N_of_ascii c))%N
            then hex_escape c
       else String c "")
      ++ bytes_repr_body quote t
  end.

(** [repr(b)], which is also [str(b)], for [bytes]: double quotes when
    the bytes hold a single quote and no double quote. *)
Definition bytes_repr (b : string) : string :=
  let quote : ascii :=
    (if has_byte "'" b && negb (has_byte "034" b) then "034" else "'")%char in
  String "b" (String quote (bytes_repr_body quote b ++ String quote "")).

(** The first run of code points ASCII cannot hold: where it starts, its
    first character, where it ends. *)
Fixpoint non_ascii_run (i : nat) (s : string) : option (nat * ascii * nat) :=
  match s with
  | EmptyString => None
  | String c t =>
      if is_ascii c then non_ascii_run (S i) t
      else
        Some (i, c,
              (fix last (j : nat) (r : string) : nat :=
                 match r with
                 | EmptyString => j
                 | String d r' => if is_ascii d then j else last (S j) r'
                 end) i t)
  end.

End PyStr.

(* ===================================================================== *)
(** ** Values, exceptions and the outside world *)
(* ===================================================================== *)

(** The exception classes the code raises or meets; all derive from
    [Exception]. *)
Inductive ExcClass : Type :=
| ValueError
| TypeError
| AttributeError
| OSError
| OtherException (name : string).

(** An exception instance: its class and [str(e)]. *)
Record PyExc : Type := mkExc { exc_class : ExcClass; exc_str : string }.

Inductive Outcome (A : Type) : Type :=
| Returns (a : A)
| Raises (e : PyExc).
Arguments Returns {A} a.
Arguments Raises {A} e.

(** An object of any other class, by what the code can see of it: the
    name of its class, its truth value and what [str] makes of it.  The
    class is not [str] and has no attribute [lower]. *)
Record PyObject : Type := mkObject {
  obj_type : string;
  obj_truth : bool;
  obj_str : Outcome string
}.

(** What a caller passes to [process_input]: the annotated [str], or
    [None], a [bool], an [int], [bytes], or an object of another
    class. *)
Inductive PyArg : Type :=
| ANone
| ABool (b : bool)
| AInt (z : Z)
| AStr (s : string)
| ABytes (b : string)
| AObj (o : PyObject).

(** [bool(x)] *)
Definition truthy (x : PyArg) : bool :=
  match x with
  | ANone => false
  | ABool b => b
  | AInt z => negb (Z.eqb z 0)
  | AStr s => negb (String.eqb s "")
  | ABytes b => negb (String.eqb b "")
  | AObj o => obj_truth o
  end.

(** [isinstance(x, str)] *)
Definition is_str (x : PyArg) : bool :=
  match x with AStr _ => true | _ => false end.

(** [type(x).__name__] *)
Definition type_name (x : PyArg) : string :=
  match x with
  | ANone => "NoneType"
  | ABool _ => "bool"
  | AInt _ => "int"
  | AStr _ => "str"
  | ABytes _ => "bytes"
  | AObj o => obj_type o
  end.

(** [str(x)]: an [int] of more than 4300 digits is refused. *)
Definition py_str (x : PyArg) : Outcome string :=
  match x with
  | ANone => Returns "None"
  | ABool true => Returns "True"
  | ABool false => Returns "False"
  | AInt z =>
      if Nat.ltb 4300 (PyStr.digits z)
      then Raises (mkExc ValueError
                     ("Exceeds the limit (4300 digits) for integer string "
                      ++ "conversion; use sys.set_int_max_str_digits() to "
                      ++ "increase the limit"))
      else Returns (PyStr.str_of_int z)
  | AStr s => Returns s
  | ABytes b => Returns (PyStr.bytes_repr b)
  | AObj o => obj_str o
  end.

Set Warnings "-register-all".

(** The values found in results: JSON-like data.  A [float] is kept as
    the rational its decimal literal denotes; a [dict] keeps its
    insertion order. *)
Inductive PyVal : Type :=
| VNone
| VBool (b : bool)
| VInt (z : Z)
| VFloat (q : Q)
| VStr (s : string)
| VTuple (l : list PyVal)
| VList (l : list PyVal)
| VDict (d : list (string * PyVal)).

Definition PyDict : Type := list (string * PyVal).

(** [d[k]], as an option. *)
Fixpoint dict_get (d : PyDict) (k : string) : option PyVal :=
  match d with
  | [] => None
  | (k', v) :: r => if String.eqb k' k then Some v else dict_get r k
  end.

(** [d[k] = v]: overwrite in place, or append a new key. *)
Fixpoint dict_set (d : PyDict) (k : string) (v : PyVal) : PyDict :=
  match d with
  | [] => [(k, v)]
  | (k', v') :: r =>
      if String.eqb k' k then (k', v) :: r else (k', v') :: dict_set r k v
  end.

(** [d.update(e)] *)
Definition dict_update (d e : PyDict) : PyDict :=
  fold_left (fun acc kv => dict_set acc (fst kv) (snd kv)) e d.

(** What [PIL.Image.open] hands back, as far as the code reads it. *)
Record PILImage : Type := mkImage {
  img_format : option string;
  img_mode : string;
  img_size : Z * Z
}.

(** The argument given to a pipeline. *)
Inductive PipeArg : Type :=
| ArgText (s : string)
| ArgImage (i : PILImage).

(** The content of the [_pipeline] attribute: [None], a [str] (the mock
    marker), or a [transformers] pipeline, a callable that returns or
    raises. *)
Inductive Pipeline : Type :=
| PipeNone
| PipeStr (s : string)
| PipeCallable (f : PipeArg -> Outcome PyVal).

(** The two concrete classes. *)
Inductive ModelClass : Type :=
| TextCls
| ImageCls.

(** The attributes of a model instance. *)
Record Model : Type := mkModel {
  cls : ModelClass;
  _model_name : string;
  _category : string;
  _is_loaded : bool;
  _model : PyVal;
  _pipeline : Pipeline
}.

(** Calls that leave the process: opening a file with PIL, building a
    [transformers] pipeline, running one, sleeping, printing a line.  The
    line of [performance_monitor] is kept as the method it times, its
    elapsed time being a clock reading. *)
Inductive Event : Type :=
| EvOpen (path : PyArg)
| EvPipeline (task model : string)
| EvInfer (arg : PipeArg)
| EvSleep (seconds : Z)
| EvPrint (line : string)
| EvTiming (method : string).

(** The encoding of [sys.stdout]. *)
Inductive Encoding : Type :=
| Utf8
| Ascii.

(** The state a method runs in: the attributes of [self] and the events so
    far. *)
Record St : Type := mkSt { self : Model; trace : list Event }.

(** The libraries and the terminal outside the repository.  [pil_open]
    and [hf_pipeline] see the events so far, so two calls with the same
    argument may differ. *)
Record Env : Type := mkEnv {
  pil_open : list Event -> PyArg -> Outcome PILImage;
  hf_pipeline :
    list Event -> string -> string -> Outcome (PipeArg -> Outcome PyVal);
  stdout_encoding : Encoding
}.

(* ===================================================================== *)
(** ** The monad of methods *)
(* ===================================================================== *)

Definition M (A : Type) : Type := St -> Outcome A * St.

Definition ret {A} (a : A) : M A := fun s => (Returns a, s).

Definition raise {A} (e : PyExc) : M A := fun s => (Raises e, s).

Definition bind {A B} (c : M A) (k : A -> M B) : M B :=
  fun s =>
    match c s with
    | (Returns a, s') => k a s'
    | (Raises e, s') => (Raises e, s')
    end.

Declare Scope py_scope.
Delimit Scope py_scope with py.
Notation "x <- c ;; k" := (bind c (fun x => k))
  (at level 61, c at next level, right associativity) : py_scope.
Notation "c ;;; k" := (bind c (fun _ => k))
  (at level 61, right associativity) : py_scope.
Open Scope py_scope.

(** [try: body except Exception as e: handler(e)] *)
Definition try_except {A} (body : M A) (handler : PyExc -> M A) : M A :=
  fun s =>
    match body s with
    | (Returns a, s') => (Returns a, s')
    | (Raises e, s') => handler e s'
    end.

(** [self.<attr>] *)
Definition get_attr {A} (attr : Model -> A) : M A :=
  fun s => (Returns (attr (self s)), s).

Definition set_pipeline (p : Pipeline) : M unit :=
  fun s =>
    let m := self s in
    (Returns tt,
     mkSt (mkModel (cls m) (_model_name m) (_category m) (_is_loaded m)
                   (_model m) p)
          (trace s)).

Definition set_is_loaded (b : bool) : M unit :=
  fun s =>
    let m := self s in
    (Returns tt,
     mkSt (mkModel (cls m) (_model_name m) (_category m) b
                   (_model m) (_pipeline m))
          (trace s)).

Definition emit (ev : Event) : M unit :=
  fun s => (Returns tt, mkSt (self s) (trace s ++ [ev])).

(** A call that returns or raises without touching the state. *)
Definition lift {A} (o : Outcome A) : M A := fun s => (o, s).

(** [self._model_name = value] *)
Definition set_model_name (value : string) : M unit :=
  fun s =>
    let m := self s in
    (Returns tt,
     mkSt (mkModel (cls m) value (_category m) (_is_loaded m)
                   (_model m) (_pipeline m))
          (trace s)).

(* ===================================================================== *)
(** ** base_classes.py *)
(* ===================================================================== *)

(** [performance_monitor]: run the method, print its timing, hand the
    result on.  Nothing is printed when the method raises. *)
Definition performance_monitor {A B} (name : string) (func : A -> M B)
  : A -> M B :=
  fun args =>
    result <- func args ;;
    emit (EvTiming name) ;;;
    ret result.

(** A call that binds the one parameter of [process_input]: by position,
    [m.process_input(x)], or by keyword under the parameter's own name,
    [m.process_input(input_text=x)] for the text class and
    [m.process_input(image_path=x)] for the image class. *)
Inductive Call : Type :=
| ByPosition (x : PyArg)
| ByKeyword (x : PyArg).

(** [args], the positional arguments after [self]. *)
Definition call_args (c : Call) : list PyArg :=
  match c with
  | ByPosition x => [x]
  | ByKeyword _ => []
  end.

(** The value the call binds to the parameter. *)
Definition call_value (c : Call) : PyArg :=
  match c with
  | ByPosition x => x
  | ByKeyword x => x
  end.

(** [validate_input]:
    [if args and not args[0]: raise ValueError(...)], then the method on
    the same arguments. *)
Definition validate_input {B} (func : Call -> M B) : Call -> M B :=
  fun c =>
    match call_args c with
    | arg0 :: _ =>
        if negb (truthy arg0)
        then raise (mkExc ValueError "Input cannot be empty")
        else func c
    | [] => func c
    end.

Module AIModelBase.

Definition __init__ (c : ModelClass) (model_name category : string) : Model :=
  {| cls := c;
     _model_name := model_name;
     _category := category;
     _is_loaded := false;
     _model := VNone;
     _pipeline := PipeNone |}.

Definition get_model_info : unit -> M PyDict :=
  performance_monitor "get_model_info" (fun _ =>
    name <- get_attr _model_name ;;
    category <- get_attr _category ;;
    loaded <- get_attr _is_loaded ;;
    ret [("name", VStr name);
         ("category", VStr category);
         ("status", VStr (if loaded then "Loaded" else "Not Loaded"))]).


(** The read-only properties. *)
Definition model_name : M string := get_attr _model_name.

Definition category : M string := get_attr _category.

Definition is_loaded : M bool := get_attr _is_loaded.

(** The setter of [model_name]:
    [if not isinstance(value, str) or not value.strip(): raise ...]. *)
Definition model_name_setter (value : PyArg) : M unit :=
  match value with
  | AStr s =>
      if negb (truthy (AStr (PyStr.strip s)))
      then raise (mkExc ValueError "Model name must be a non-empty string")
      else set_model_name s
  | _ => raise (mkExc ValueError "Model name must be a non-empty string")
  end.

End AIModelBase.

Module TextProcessorMixin.

(** [clean_text]: [str(text)] as it is for a non-string, else strip and
    turn each newline and each tab into a space. *)
Definition clean_text (text : PyArg) : Outcome string :=
  match text with
  | AStr s =>
      Returns
        (PyStr.replace "009" " " (PyStr.replace "010" " " (PyStr.strip s)))
  | _ => py_str text
  end.

Definition validate_text_length (text : string) (max_length : nat) : bool :=
  Nat.leb (String.length text) max_length.

End TextProcessorMixin.

(** [x.lower()]: a [str] or [bytes] in lower case, an [AttributeError]
    for any other object. *)
Definition py_lower (x : PyArg) : M PyArg :=
  match x with
  | AStr s => ret (AStr (PyStr.lower s))
  | ABytes b => ret (ABytes (PyStr.lower_bytes b))
  | _ =>
      raise (mkExc AttributeError
               ("'" ++ type_name x ++ "' object has no attribute 'lower'"))
  end.

(** [x.endswith(suffix)] for a [str] suffix: [bytes] take no [str]. *)
Definition py_endswith (x : PyArg) (suffix : string) : M bool :=
  match x with
  | AStr s => ret (PyStr.endswith s suffix)
  | ABytes _ =>
      raise (mkExc TypeError
               "endswith first arg must be bytes or a tuple of bytes, not str")
  | _ =>
      raise (mkExc AttributeError
               ("'" ++ type_name x
                ++ "' object has no attribute 'endswith'"))
  end.

(** [sub in x] for a [str] [sub] *)
Definition py_contains (sub : string) (x : PyArg) : M bool :=
  match x with
  | AStr s => ret (PyStr.contains sub s)
  | ABytes _ =>
      raise (mkExc TypeError "a bytes-like object is required, not 'str'")
  | _ =>
      raise (mkExc TypeError
               ("argument of type '" ++ type_name x ++ "' is not iterable"))
  end.

(** [os.path.basename(x)] *)
Definition os_path_basename (x : PyArg) : M PyArg :=
  match x with
  | AStr s => ret (AStr (PyStr.basename s))
  | ABytes b => ret (ABytes (PyStr.basename b))
  | _ =>
      raise (mkExc TypeError
               ("expected str, bytes or os.PathLike object, not "
                ++ type_name x))
  end.

(** [p(arg)] for the content of [_pipeline]: a pipeline is run outside
    the repository. *)
Definition call_pipeline (p : Pipeline) (arg : PipeArg) : M PyVal :=
  match p with
  | PipeNone => raise (mkExc TypeError "'NoneType' object is not callable")
  | PipeStr _ => raise (mkExc TypeError "'str' object is not callable")
  | PipeCallable f => emit (EvInfer arg) ;;; lift (f arg)
  end.

(** What the ASCII codec answers to a line it cannot encode. *)
Definition ascii_encode_error (line : string) : option PyExc :=
  match PyStr.non_ascii_run 0 line with
  | None => None
  | Some (i, c, j) =>
      Some (mkExc (OtherException "UnicodeEncodeError")
              (if Nat.eqb i j
               then "'ascii' codec can't encode character '"
                    ++ PyStr.hex_escape c ++ "' in position "
                    ++ PyStr.str_of_int (Z.of_nat i)
                    ++ ": ordinal not in range(128)"
               else "'ascii' codec can't encode characters in position "
                    ++ PyStr.str_of_int (Z.of_nat i) ++ "-"
                    ++ PyStr.str_of_int (Z.of_nat j)
                    ++ ": ordinal not in range(128)"))
  end.

(** The exception [sys.stdout] raises for a line, if any. *)
Definition encode_error (enc : Encoding) (line : string) : option PyExc :=
  match enc with
  | Utf8 => None
  | Ascii => ascii_encode_error line
  end.

(** [isinstance(p, str) and p == marker] *)
Definition is_mock (p : Pipeline) (marker : string) : bool :=
  match p with
  | PipeStr s => String.eqb s marker
  | _ => false
  end.

Section WithEnv.

Variable env : Env.

(** [Image.open(x)] *)
Definition Image_open (x : PyArg) : M PILImage :=
  fun s => (pil_open env (trace s) x, mkSt (self s) (trace s ++ [EvOpen x])).

(** [pipeline(task, model=name, ...)] *)
Definition pipeline (task name : string) : M (PipeArg -> Outcome PyVal) :=
  fun s =>
    (hf_pipeline env (trace s) task name,
     mkSt (self s) (trace s ++ [EvPipeline task name])).

(** [print(line)]: nothing is written when the line cannot be encoded. *)
Definition py_print (line : string) : M unit :=
  match encode_error (stdout_encoding env) line with
  | Some e => raise e
  | None => emit (EvPrint line)
  end.

End WithEnv.

Module ImageProcessorMixin.

Definition valid_formats : list string :=
  [".jpg"; ".jpeg"; ".png"; ".bmp"; ".gif"].

(** [any(image_path.lower().endswith(fmt) for fmt in fmts)] *)
Fixpoint any_format (image_path : PyArg) (fmts : list string) : M bool :=
  match fmts with
  | [] => ret false
  | fmt :: rest =>
      lowered <- py_lower image_path ;;
      found <- py_endswith lowered fmt ;;
      if found then ret true else any_format image_path rest
  end.

Definition validate_image_format (image_path : PyArg) : M bool :=
  any_format image_path valid_formats.

Definition image_info_of (img : PILImage) : PyVal :=
  VDict [("format", match img_format img with
                    | Some f => VStr f
                    | None => VNone
                    end);
         ("mode", VStr (img_mode img));
         ("size", VTuple [VInt (fst (img_size img));
                          VInt (snd (img_size img))])].

Definition get_image_info (env : Env) (image_path : PyArg) : M PyVal :=
  try_except
    (img <- Image_open env image_path ;;
     ret (image_info_of img))
    (fun e => ret (VDict [("error", VStr (exc_str e))])).

End ImageProcessorMixin.

(* ===================================================================== *)
(** ** ai_models.py *)
(* ===================================================================== *)

(** A [{"label": ..., "score": ...}] entry of a result list. *)
Definition prediction (label : string) (score : Q) : PyVal :=
  VDict [("label", VStr label); ("score", VFloat score)].

(** [{"error": msg}] *)
Definition error_result (msg : string) : PyVal :=
  VDict [("error", VStr msg)].

Module TextClassificationModel.

Definition __init__ : Model :=
  AIModelBase.__init__ TextCls
    "distilbert-base-uncased-finetuned-sst-2-english" "Text Classification".

Definition load_model (env : Env) : unit -> M unit :=
  performance_monitor "load_model" (fun _ =>
    try_except
      (emit (EvSleep 1) ;;;
       try_except
         (name <- get_attr _model_name ;;
          p <- pipeline env "sentiment-analysis" name ;;
          set_pipeline (PipeCallable p))
         (fun _ => set_pipeline (PipeStr "mock_sentiment_pipeline")) ;;;
       set_is_loaded true ;;;
       name <- get_attr _model_name ;;
       py_print env ("Successfully loaded " ++ name))
      (fun e =>
         py_print env ("Error loading model: " ++ exc_str e) ;;;
         set_is_loaded false)).

(** The statements inside [try:] of [process_input]. *)
Definition process_body (input_text : PyArg) : M PyVal :=
  cleaned_text <- lift (TextProcessorMixin.clean_text input_text) ;;
  if negb (TextProcessorMixin.validate_text_length cleaned_text 1000)
  then ret (error_result "Text too long (max 1000 characters)")
  else
    p <- get_attr _pipeline ;;
    results <-
      (if is_mock p "mock_sentiment_pipeline"
       then ret (VList [prediction
                          (if PyStr.contains "good" (PyStr.lower cleaned_text)
                              || PyStr.contains "great"
                                   (PyStr.lower cleaned_text)
                           then "POSITIVE" else "NEGATIVE")
                          0.95])
       else call_pipeline p (ArgText cleaned_text)) ;;
    name <- get_attr _model_name ;;
    ret (VDict [("input", VStr cleaned_text);
                ("results", results);
                ("model_used", VStr name)]).

Definition process_input : Call -> M PyVal :=
  validate_input (performance_monitor "process_input" (fun c =>
    let input_text := call_value c in
    loaded <- get_attr _is_loaded ;;
    if negb loaded then ret (error_result "Model not loaded")
    else
      try_except (process_body input_text)
        (fun e => ret (error_result ("Processing failed: " ++ exc_str e))))).

Definition get_model_info : unit -> M PyDict :=
  fun _ =>
    base_info <- AIModelBase.get_model_info tt ;;
    ret (dict_update base_info
           [("description", VStr "DistilBERT sentiment analysis model");
            ("input_type", VStr "Text");
            ("output_type",
             VStr "Sentiment classification (POSITIVE/NEGATIVE)");
            ("use_case",
             VStr "Analyze sentiment of text input, reviews, comments")]).

End TextClassificationModel.

Module ImageClassificationModel.

Definition __init__ : Model :=
  AIModelBase.__init__ ImageCls
    "google/vit-base-patch16-224" "Image Classification".

Definition load_model (env : Env) : unit -> M unit :=
  performance_monitor "load_model" (fun _ =>
    try_except
      (emit (EvSleep 1) ;;;
       try_except
         (name <- get_attr _model_name ;;
          p <- pipeline env "image-classification" name ;;
          set_pipeline (PipeCallable p))
         (fun _ => set_pipeline (PipeStr "mock_image_pipeline")) ;;;
       set_is_loaded true ;;;
       name <- get_attr _model_name ;;
       py_print env ("Successfully loaded " ++ name))
      (fun e =>
         py_print env ("Error loading model: " ++ exc_str e) ;;;
         set_is_loaded false)).

Definition cat_guess : PyVal :=
  VList [prediction "tabby cat" 0.85; prediction "domestic cat" 0.12].

Definition dog_guess : PyVal :=
  VList [prediction "golden retriever" 0.78; prediction "labrador" 0.15].

Definition generic_guess : PyVal :=
  VList [prediction "object" 0.65; prediction "item" 0.25;
         prediction "thing" 0.10].

(** The mock classification as a function of the lowered base name, a
    [str]. *)
Definition mock_results (filename : string) : PyVal :=
  if PyStr.contains "cat" filename then cat_guess
  else if PyStr.contains "dog" filename then dog_guess
  else generic_guess.

(** [results[:5] if isinstance(results, list) else results] *)
Definition top5 (results : PyVal) : PyVal :=
  match results with
  | VList l => VList (firstn 5 l)
  | _ => results
  end.

(** The statements inside [try:] of [process_input]. *)
Definition process_body (env : Env) (image_path : PyArg) : M PyVal :=
  ok <- ImageProcessorMixin.validate_image_format image_path ;;
  if negb ok then ret (error_result "Invalid image format")
  else
    image <- Image_open env image_path ;;
    image_info <- ImageProcessorMixin.get_image_info env image_path ;;
    p <- get_attr _pipeline ;;
    results <-
      (if is_mock p "mock_image_pipeline"
       then
         base <- os_path_basename image_path ;;
         filename <- py_lower base ;;
         is_cat <- py_contains "cat" filename ;;
         if is_cat then ret cat_guess
         else
           is_dog <- py_contains "dog" filename ;;
           if is_dog then ret dog_guess else ret generic_guess
       else call_pipeline p (ArgImage image)) ;;
    name <- get_attr _model_name ;;
    ret (VDict [("image_info", image_info);
                ("results", top5 results);
                ("model_used", VStr name)]).

Definition process_input (env : Env) : Call -> M PyVal :=
  validate_input (performance_monitor "process_input" (fun c =>
    let image_path := call_value c in
    loaded <- get_attr _is_loaded ;;
    if negb loaded then ret (error_result "Model not loaded")
    else
      try_except (process_body env image_path)
        (fun e => ret (error_result ("Processing failed: " ++ exc_str e))))).

Definition get_model_info : unit -> M PyDict :=
  fun _ =>
    base_info <- AIModelBase.get_model_info tt ;;
    ret (dict_update base_info
           [("description",
             VStr "Vision Transformer for image classification");
            ("input_type", VStr "Image (JPG, PNG, BMP, GIF)");
            ("output_type",
             VStr "Object classification with confidence scores");
            ("use_case",
             VStr "Identify objects, animals, scenes in images")]).

End ImageClassificationModel.

(** The [try] block of the [process_input] of the class of [self]. *)
Definition process_body (env : Env) (input_data : PyArg) : M PyVal :=
  fun s =>
    match cls (self s) with
    | TextCls => TextClassificationModel.process_body input_data s
    | ImageCls => ImageClassificationModel.process_body env input_data s
    end.

(** Method lookup on the class of [self]. *)
Definition load_model (env : Env) : unit -> M unit :=
  fun u s =>
    match cls (self s) with
    | TextCls => TextClassificationModel.load_model env u s
    | ImageCls => ImageClassificationModel.load_model env u s
    end.

Definition call_process_input (env : Env) (c : Call) : M PyVal :=
  fun s =>
    match cls (self s) with
    | TextCls => TextClassificationModel.process_input c s
    | ImageCls => ImageClassificationModel.process_input env c s
    end.

(** [m.process_input(input_data)] *)
Definition process_input (env : Env) (input_data : PyArg) : M PyVal :=
  call_process_input env (ByPosition input_data).

(** [m.process_input(<parameter>=input_data)] *)
Definition process_input_keyword (env : Env) (input_data : PyArg) : M PyVal :=
  call_process_input env (ByKeyword input_data).

Definition get_model_info : unit -> M PyDict :=
  fun u s =>
    match cls (self s) with
    | TextCls => TextClassificationModel.get_model_info u s
    | ImageCls => ImageClassificationModel.get_model_info u s
    end.

(** The objects alive in the interpreter: an instance is named by its
    position, and a constructor call adds one at the end. *)
Definition Heap : Type := list Model.
Definition Ref : Type := nat.

Definition heap_get (h : Heap) (r : Ref) : option Model := nth_error h r.

Definition construct (c : ModelClass) : Model :=
  match c with
  | TextCls => TextClassificationModel.__init__
  | ImageCls => ImageClassificationModel.__init__
  end.

(** [c()]: allocate a new instance. *)
Definition new_instance (c : ModelClass) (h : Heap) : Ref * Heap :=
  (List.length h, (h ++ [construct c])%list).

Module ModelFactory.

Definition _models : list (string * ModelClass) :=
  [("Text-to-Image", TextCls);
   ("Image Classification", ImageCls)].

(** [k in d] *)
Definition registry_mem (d : list (string * ModelClass)) (k : string) : bool :=
  existsb (fun kv => String.eqb (fst kv) k) d.

(** [d[k]] *)
Fixpoint registry_get (d : list (string * ModelClass)) (k : string)
  : option ModelClass :=
  match d with
  | [] => None
  | (k', c) :: r => if String.eqb k' k then Some c else registry_get r k
  end.

Definition create_model (model_type : string) (h : Heap)
  : Outcome Ref * Heap :=
  if negb (registry_mem _models model_type)
  then (Raises (mkExc ValueError ("Unknown model type: " ++ model_type)), h)
  else
    match registry_get _models model_type with
    | Some c => let (r, h') := new_instance c h in (Returns r, h')
    | None => (Raises (mkExc (OtherException "KeyError") model_type), h)
    end.

(** [list(cls._models.keys())] *)
Definition get_available_models : list string := map fst _models.

End ModelFactory.

(** Run a method on the instance [m] from the trace [t]. *)
Definition run {A} (c : M A) (m : Model) (t : list Event) : Outcome A * St :=
  c (mkSt m t).

(* ===================================================================== *)
(** ** main_application.py and gui_components.py: the callers *)
(* ===================================================================== *)

(** What the window shows: the message boxes and the dictionaries handed
    to [OutputPanel.display_output] and to
    [InformationPanel.update_model_info]. *)
Inductive GuiEvent : Type :=
| ShowWarning (title message : string)
| ShowError (title message : string)
| DisplayOutput (output_data : PyDict)
| UpdateModelInfo (model_info : PyDict).

(** The application as its methods see it: the current model, shared with
    whoever loaded it, the events of the model layer and what was shown. *)
Record AppSt : Type := mkApp {
  _current_model : option Model;
  world : list Event;
  screen : list GuiEvent
}.

(** The monad of the methods of the window. *)
Definition GM (A : Type) : Type := AppSt -> Outcome A * AppSt.

Definition gret {A} (a : A) : GM A := fun s => (Returns a, s).

Definition gbind {A B} (c : GM A) (k : A -> GM B) : GM B :=
  fun s =>
    match c s with
    | (Returns a, s') => k a s'
    | (Raises e, s') => (Raises e, s')
    end.

Notation "x <~ c ;; k" := (gbind c (fun x => k))
  (at level 61, c at next level, right associativity) : py_scope.
Notation "c ;;~ k" := (gbind c (fun _ => k))
  (at level 61, right associativity) : py_scope.

(** [try: body except Exception as e: handler(e)] *)
Definition gtry {A} (body : GM A) (handler : PyExc -> GM A) : GM A :=
  fun s =>
    match body s with
    | (Returns a, s') => (Returns a, s')
    | (Raises e, s') => handler e s'
    end.

Definition glift {A} (o : Outcome A) : GM A := fun s => (o, s).

(** [self._current_model] *)
Definition current_model : GM (option Model) :=
  fun s => (Returns (_current_model s), s).


(** A message box or a call that updates a panel. *)
Definition show (ev : GuiEvent) : GM unit :=
  fun s =>
    (Returns tt, mkApp (_current_model s) (world s) (screen s ++ [ev])).

(** [self._current_model.<attr>(...)]: the method runs on the current
    model, which it may update in place; on [None] the attribute lookup
    fails. *)
Definition on_current_model {A} (attr : string) (c : M A) : GM A :=
  fun s =>
    match _current_model s with
    | None =>
        (Raises (mkExc AttributeError
                   ("'NoneType' object has no attribute '" ++ attr ++ "'")),
         s)
    | Some m =>
        let (o, s') := c (mkSt m (world s)) in
        (o, mkApp (Some (self s')) (trace s') (screen s))
    end.

(** The dictionary [InputPanel] hands over: [{"type": ..., "data": ...}]. *)
Definition InputData : Type := list (string * PyArg).

(** [input_data[k]]: a [KeyError] when the key is missing. *)
Fixpoint input_getitem (d : InputData) (k : string) : Outcome PyArg :=
  match d with
  | [] => Raises (mkExc (OtherException "KeyError") ("'" ++ k ++ "'"))
  | (k', v) :: r => if String.eqb k' k then Returns v else input_getitem r k
  end.

(** [x == s] for a string literal [s] *)
Definition arg_eq_str (x : PyArg) (s : string) : bool :=
  match x with
  | AStr s' => String.eqb s' s
  | _ => false
  end.

(** An argument as a value [json.dumps] can write, as [display_output]
    asks of what it shows; [bytes] and other objects are refused. *)
Definition arg_json (x : PyArg) : Outcome PyVal :=
  match x with
  | ANone => Returns VNone
  | ABool b => Returns (VBool b)
  | AInt z => Returns (VInt z)
  | AStr s => Returns (VStr s)
  | _ =>
      Raises (mkExc TypeError
                ("Object of type " ++ type_name x
                 ++ " is not JSON serializable"))
  end.

(** [d.get(k, default)] *)
Definition dict_get_default (d : PyDict) (k : string) (default : PyVal)
  : PyVal :=
  match dict_get d k with
  | Some v => v
  | None => default
  end.

(** [type(v).__name__] *)
Definition val_type_name (v : PyVal) : string :=
  match v with
  | VNone => "NoneType"
  | VBool _ => "bool"
  | VInt _ => "int"
  | VFloat _ => "float"
  | VStr _ => "str"
  | VTuple _ => "tuple"
  | VList _ => "list"
  | VDict _ => "dict"
  end.

(** [v.lower()]: an [AttributeError] unless [v] is a [str]. *)
Definition val_lower (v : PyVal) : Outcome string :=
  match v with
  | VStr s => Returns (PyStr.lower s)
  | _ =>
      Raises (mkExc AttributeError
                ("'" ++ val_type_name v
                 ++ "' object has no attribute 'lower'"))
  end.

Module MainApplication.


Definition _validate_input_compatibility (input_data : InputData) : GM bool :=
  model_info <~ on_current_model "get_model_info" (get_model_info tt) ;;
  model_category <~
    glift (val_lower (dict_get_default model_info "category" (VStr ""))) ;;
  ty <~ glift (input_getitem input_data "type") ;;
  if arg_eq_str ty "text" && negb (PyStr.contains "text" model_category)
  then
    show (ShowError "Error"
            ("Current model doesn't support text input. "
             ++ "Please select 'Text-to-Image' model.")) ;;~
    gret false
  else
    ty <~ glift (input_getitem input_data "type") ;;
    if arg_eq_str ty "image" && negb (PyStr.contains "image" model_category)
    then
      show (ShowError "Error"
              ("Current model doesn't support image input. "
               ++ "Please select 'Image Classification' model.")) ;;~
      gret false
    else gret true.

(** The statements inside [try:] of [_process_with_model]. *)
Definition process_with_model_body (env : Env) (input_data : InputData)
           (model_number : Z) : GM unit :=
  ok <~ _validate_input_compatibility input_data ;;
  if negb ok then gret tt
  else
    ty <~ glift (input_getitem input_data "type") ;;
    result <~
      (if arg_eq_str ty "text"
       then
         data <~ glift (input_getitem input_data "data") ;;
         r <~ on_current_model "process_input" (process_input env data) ;;
         gret (Some r)
       else
         ty <~ glift (input_getitem input_data "type") ;;
         if arg_eq_str ty "image"
         then
           data <~ glift (input_getitem input_data "data") ;;
           r <~ on_current_model "process_input" (process_input env data) ;;
           gret (Some r)
         else
           show (ShowError "Error" "Unsupported input type") ;;~
           gret None) ;;
    match result with
    | None => gret tt
    | Some r =>
        ty <~ glift (input_getitem input_data "type") ;;
        name <~ on_current_model "model_name" AIModelBase.model_name ;;
        input_type <~ glift (arg_json ty) ;;
        show (DisplayOutput [("model_number", VInt model_number);
                             ("input_type", input_type);
                             ("model_name", VStr name);
                             ("result", r)])
    end.

Definition _process_with_model (env : Env) (input_data : InputData)
           (model_number : Z) : GM unit :=
  cur <~ current_model ;;
  match cur with
  | None => show (ShowWarning "Warning" "Please load a model first")
  | Some m =>
      if negb (_is_loaded m)
      then show (ShowWarning "Warning" "Model is not loaded")
      else
        gtry (process_with_model_body env input_data model_number)
          (fun e =>
             cur <~ current_model ;;
             show (DisplayOutput
                     [("error", VStr (exc_str e));
                      ("model_name",
                       VStr match cur with
                            | Some m => _model_name m
                            | None => "Unknown"
                            end)]))
  end.

End MainApplication.

Module InputPanel.

(** The widgets of the panel, by what they hold: the radio button, the
    text [self._text_entry.get(1.0, tk.END)] returns, the selected
    file. *)
Record Widgets : Type := mkWidgets {
  _input_type : string;
  _text_entry : string;
  _input_file_path : string
}.

Definition _get_input_data (w : Widgets) : GM (option InputData) :=
  if String.eqb (_input_type w) "Text"
  then
    let text := PyStr.strip (_text_entry w) in
    if negb (truthy (AStr text))
    then
      show (ShowWarning "Warning" "Please enter some text") ;;~
      gret None
    else gret (Some [("type", AStr "text"); ("data", AStr text)])
  else
    let file_path := _input_file_path w in
    if negb (truthy (AStr file_path))
    then
      show (ShowWarning "Warning" "Please select an image file") ;;~
      gret None
    else gret (Some [("type", AStr "image"); ("data", AStr file_path)]).

(** [_process_input], with the panel wired to the application as
    [_create_gui_components] does, so that [hasattr(self._parent,
    '_process_with_model')] holds. *)
Definition _process_input (env : Env) (w : Widgets) (model_number : Z)
  : GM unit :=
  input_data <~ _get_input_data w ;;
  match input_data with
  | Some ((_ :: _) as d) =>
      MainApplication._process_with_model env d model_number
  | _ => gret tt
  end.

End InputPanel.

(* ===================================================================== *)
(** ** Vocabulary of the statements *)
(* ===================================================================== *)

(** [results[0]["label"]] of a ranked list. *)
Definition results_first_label (results : PyVal) : option string :=
  match results with
  | VList (VDict d :: _) =>
      match dict_get d "label" with
      | Some (VStr l) => Some l
      | _ => None
      end
  | _ => None
  end.

(** [result["results"][0]["label"]] of what a call returned. *)
Definition first_label (o : Outcome PyVal) : option string :=
  match o with
  | Returns (VDict d) =>
      match dict_get d "results" with
      | Some r => results_first_label r
      | None => None
      end
  | _ => None
  end.

(** [w] occurs in [s] up to letter case. *)
Definition occurs_ci (w s : string) : Prop :=
  exists pre mid post, s = pre ++ mid ++ post /\ PyStr.lower mid = w.

(** [s] ends with [ext] up to letter case. *)
Definition ends_ci (s ext : string) : Prop :=
  exists pre e, s = pre ++ e /\ PyStr.lower e = ext.

(** [s] ends, up to letter case, with an extension of the allow-list. *)
Definition allow_listed (s : string) : Prop :=
  exists ext, In ext ImageProcessorMixin.valid_formats /\ ends_ci s ext.

(** A method that leaves the attributes of [self] as they were. *)
Definition keeps_self {A} (c : M A) : Prop :=
  forall s, self (snd (c s)) = self s.

(** A machine with no image files and no access to the model hub. *)
Definition env_offline : Env :=
  {| pil_open := fun _ x =>
       Raises (mkExc OSError
                 ("[Errno 2] No such file or directory: '"
                  ++ match x with AStr s => s | _ => type_name x end
                  ++ "'"));
     hf_pipeline := fun _ _ _ =>
       Raises (mkExc OSError "We couldn't connect to 'https://huggingface.co'");
     stdout_encoding := Utf8
  |}.

(** A machine on which every path opens as a small RGB PNG. *)
Definition env_images : Env :=
  {| pil_open := fun _ _ => Returns (mkImage (Some "PNG") "RGB" (640, 480)%Z);
     hf_pipeline := hf_pipeline env_offline;
     stdout_encoding := Utf8 |}.

(** A machine on which a file is there for the first [Image.open] of a
    run and gone afterwards. *)
Definition env_vanishing : Env :=
  {| pil_open := fun tr x =>
       match tr with
       | [] => Returns (mkImage (Some "GIF") "P" (32, 32)%Z)
       | _ => pil_open env_offline tr x
       end;
     hf_pipeline := hf_pipeline env_offline;
     stdout_encoding := Utf8 |}.

(** The instances [load_model] leaves behind without the model hub. *)
Definition loaded_text : Model :=
  self (snd (run (load_model env_offline tt)
               TextClassificationModel.__init__ [])).

Definition loaded_image : Model :=
  self (snd (run (load_model env_offline tt)
               ImageClassificationModel.__init__ [])).

(** A loaded text instance whose pipeline fails on every call. *)
Definition failing_text : Model :=
  {| cls := TextCls;
     _model_name := _model_name TextClassificationModel.__init__;
     _category := _category TextClassificationModel.__init__;
     _is_loaded := true;
     _model := VNone;
     _pipeline := PipeCallable (fun _ =>
       Raises (mkExc (OtherException "RuntimeError") "CUDA out of memory")) |}.

(** Every character of [s] is whitespace. *)
Definition blank (s : string) : bool :=
  forallb PyStr.isspace (list_ascii_of_string s).

(** No character of [s] is whitespace. *)
Definition spaceless (s : string) : bool :=
  forallb (fun c => negb (PyStr.isspace c)) (list_ascii_of_string s).

(** [s] with [f] applied to each character. *)
Fixpoint map_chars (f : ascii -> ascii) (s : string) : string :=
  match s with
  | EmptyString => EmptyString
  | String c t => String (f c) (map_chars f t)
  end.

(** What [clean_text] does to one character of the stripped text. *)
Definition clean_char (c : ascii) : ascii :=
  let c1 := if Ascii.eqb c "010" then " "%char else c in
  if Ascii.eqb c1 "009" then " "%char else c1.

(** The task a class asks [transformers.pipeline] for, and the marker it
    falls back to. *)
Definition pipeline_task (c : ModelClass) : string :=
  match c with
  | TextCls => "sentiment-analysis"
  | ImageCls => "image-classification"
  end.

Definition mock_marker (c : ModelClass) : string :=
  match c with
  | TextCls => "mock_sentiment_pipeline"
  | ImageCls => "mock_image_pipeline"
  end.

(** [m] with its name, its loaded flag or its pipeline replaced. *)
Definition with_name (m : Model) (name : string) : Model :=
  mkModel (cls m) name (_category m) (_is_loaded m) (_model m) (_pipeline m).

Definition with_load (m : Model) (p : Pipeline) : Model :=
  mkModel (cls m) (_model_name m) (_category m) true (_model m) p.

(** [m] after a [load_model] whose success line could not be printed:
    the pipeline is installed and the flag is unset. *)
Definition with_failed_load (m : Model) (p : Pipeline) : Model :=
  mkModel (cls m) (_model_name m) (_category m) false (_model m) p.

(** Every character of [s] is ASCII. *)
Definition all_ascii (s : string) : bool :=
  forallb PyStr.is_ascii (list_ascii_of_string s).

(** [sys.stdout] of [env] can encode [line]. *)
Definition prints (env : Env) (line : string) : bool :=
  match encode_error (stdout_encoding env) line with
  | None => true
  | Some _ => false
  end.

(** The pipeline [load_model] installs on [m] from the trace [t]: the
    real one when [transformers] hands it over, else the mock marker. *)
Definition installed (env : Env) (m : Model) (t : list Event) : Pipeline :=
  match hf_pipeline env (t ++ [EvSleep 1]) (pipeline_task (cls m))
          (_model_name m) with
  | Returns f => PipeCallable f
  | Raises _ => PipeStr (mock_marker (cls m))
  end.

(** A machine like [env_offline] whose terminal takes ASCII only. *)
Definition env_ascii : Env :=
  {| pil_open := pil_open env_offline;
     hf_pipeline := hf_pipeline env_offline;
     stdout_encoding := Ascii |}.

(** A text instance renamed through the setter to a name with an accent,
    "caf" followed by U+00E9. *)
Definition cafe_text : Model :=
  self (snd (run (AIModelBase.model_name_setter
                    (AStr ("caf" ++ String "233" "")))
               TextClassificationModel.__init__ [])).

(** The [dict] [get_model_info] returns for [m]. *)
Definition model_info_of (m : Model) : PyDict :=
  match fst (run (get_model_info tt) m []) with
  | Returns d => d
  | Raises _ => []
  end.

(** The two refusals of [_validate_input_compatibility]. *)
Definition refuses_text : GuiEvent :=
  ShowError "Error"
    ("Current model doesn't support text input. "
     ++ "Please select 'Text-to-Image' model.").

Definition refuses_image : GuiEvent :=
  ShowError "Error"
    ("Current model doesn't support image input. "
     ++ "Please select 'Image Classification' model.").

(** The application after the current model [m] has described itself. *)
Definition described (a : AppSt) (m : Model) : AppSt :=
  mkApp (Some m) (world a ++ [EvTiming "get_model_info"]) (screen a).

(** [a] with one more thing on the screen. *)
Definition showing (a : AppSt) (ev : GuiEvent) : AppSt :=
  mkApp (_current_model a) (world a) (screen a ++ [ev]).

(** The application once [m] is its current model. *)
Definition app_with (m : Model) : AppSt :=
  {| _current_model := Some m; world := []; screen := [] |}.

(** A loaded image instance with a real pipeline that ranks eight
    labels. *)
Definition ranked_image : Model :=
  {| cls := ImageCls;
     _model_name := _model_name ImageClassificationModel.__init__;
     _category := _category ImageClassificationModel.__init__;
     _is_loaded := true;
     _model := VNone;
     _pipeline := PipeCallable (fun _ =>
       Returns (VList (map (fun l => prediction l 0.1)
                         ["a"; "b"; "c"; "d"; "e"; "f"; "g"; "h"]))) |}.

(* ===================================================================== *)
(** ** The embedding on concrete inputs *)
(* ===================================================================== *)

Example lower_mixed : PyStr.lower "Photo_Of_DOG.PnG" = "photo_of_dog.png".
Proof. reflexivity. Qed.

Example strip_inner_kept :
  PyStr.strip (String "009" " a  b " ++ String "010" "") = "a  b".
Proof. reflexivity. Qed.

Example basename_dirs : PyStr.basename "/tmp/dogs/cat.png" = "cat.png".
Proof. reflexivity. Qed.

Example basename_trailing : PyStr.basename "dir/" = "".
Proof. reflexivity. Qed.

Example endswith_jpg : PyStr.endswith "a.jpg" ".jpg" = true.
Proof. reflexivity. Qed.

Example endswith_short : PyStr.endswith "jpg" ".jpg" = false.
Proof. reflexivity. Qed.

Example str_of_int_neg : PyStr.str_of_int (-42) = "-42".
Proof. reflexivity. Qed.

Example str_of_int_zero : PyStr.str_of_int 0 = "0".
Proof. reflexivity. Qed.

Example falsy_arguments :
  map truthy [ANone; ABool false; AInt 0; AStr ""; AStr " "; AInt (-1)]
  = [false; false; false; false; true; true].
Proof. reflexivity. Qed.

Example clean_text_newline_tab :
  TextProcessorMixin.clean_text
    (AStr ("  so" ++ String "010" "good" ++ String "009" "today "))
  = Returns "so good today".
Proof. reflexivity. Qed.

Example clean_text_int :
  TextProcessorMixin.clean_text (AInt 42) = Returns "42".
Proof. reflexivity. Qed.

Example clean_text_object_kept_as_is :
  TextProcessorMixin.clean_text
    (AObj (mkObject "Exception" true (Returns " a ")))
  = Returns " a ".
Proof. reflexivity. Qed.

Example clean_text_bytes :
  TextProcessorMixin.clean_text (ABytes "dog.png") = Returns "b'dog.png'".
Proof. reflexivity. Qed.

Example str_of_int_at_the_limit :
  py_str (AInt (10 ^ 4300 - 1))
  = Returns (PyStr.mul "9" 4300).
Proof. vm_compute. reflexivity. Qed.

Example str_of_int_over_the_limit :
  py_str (AInt (- 10 ^ 4300))
  = Raises (mkExc ValueError
              ("Exceeds the limit (4300 digits) for integer string "
               ++ "conversion; use sys.set_int_max_str_digits() to "
               ++ "increase the limit")).
Proof. vm_compute. reflexivity. Qed.

Example ascii_stdout_refuses_accent :
  ascii_encode_error ("Successfully loaded caf" ++ String "233" "")
  = Some (mkExc (OtherException "UnicodeEncodeError")
            ("'ascii' codec can't encode character '\xe9' in position 23: "
             ++ "ordinal not in range(128)")).
Proof. reflexivity. Qed.

Example ascii_stdout_refuses_run :
  ascii_encode_error ("ab" ++ String "233" (String "232" "cd"))
  = Some (mkExc (OtherException "UnicodeEncodeError")
            ("'ascii' codec can't encode characters in position 2-3: "
             ++ "ordinal not in range(128)")).
Proof. reflexivity. Qed.

Example keyword_call_skips_validation :
  fst (run (process_input_keyword env_offline (AStr "")) loaded_text [])
  = Returns (VDict [("input", VStr "");
                    ("results", VList [prediction "NEGATIVE" 0.95]);
                    ("model_used", VStr (_model_name loaded_text))]).
Proof. reflexivity. Qed.

Example image_bytes_argument :
  fst (run (process_input env_images (ABytes "dog.png")) loaded_image []) =
  Returns (error_result
             ("Processing failed: endswith first arg must be bytes or a "
              ++ "tuple of bytes, not str")).
Proof. reflexivity. Qed.

Example loaded_text_attrs :
  loaded_text =
  {| cls := TextCls;
     _model_name := "distilbert-base-uncased-finetuned-sst-2-english";
     _category := "Text Classification";
     _is_loaded := true;
     _model := VNone;
     _pipeline := PipeStr "mock_sentiment_pipeline" |}.
Proof. reflexivity. Qed.

Example load_model_trace :
  trace (snd (run (load_model env_offline tt)
                ImageClassificationModel.__init__ []))
  = [EvSleep 1;
     EvPipeline "image-classification" "google/vit-base-patch16-224";
     EvPrint "Successfully loaded google/vit-base-patch16-224";
     EvTiming "load_model"].
Proof. reflexivity. Qed.

Example load_model_print_fails :
  run (load_model env_ascii tt) cafe_text [] =
  (Returns tt,
   mkSt (with_failed_load cafe_text (PipeStr "mock_sentiment_pipeline"))
        [EvSleep 1;
         EvPipeline "sentiment-analysis" ("caf" ++ String "233" "");
         EvPrint ("Error loading model: 'ascii' codec can't encode "
                  ++ "character '\xe9' in position 23: ordinal not in "
                  ++ "range(128)");
         EvTiming "load_model"]).
Proof. reflexivity. Qed.

Example text_pipeline_call_is_traced :
  trace (snd (run (process_input env_offline (AStr " a fine day "))
                failing_text []))
  = [EvInfer (ArgText "a fine day"); EvTiming "process_input"].
Proof. reflexivity. Qed.

Example text_huge_int :
  fst (run (process_input env_offline (AInt (10 ^ 4300))) loaded_text []) =
  Returns (error_result
             ("Processing failed: Exceeds the limit (4300 digits) for "
              ++ "integer string conversion; use "
              ++ "sys.set_int_max_str_digits() to increase the limit")).
Proof. vm_compute. reflexivity. Qed.

Example text_negative :
  first_label (fst (run (process_input env_offline (AStr "Goo d gre at"))
                      loaded_text []))
  = Some "NEGATIVE".
Proof. reflexivity. Qed.

Example text_positive_upper :
  first_label (fst (run (process_input env_offline (AStr "so GOOD"))
                      loaded_text []))
  = Some "POSITIVE".
Proof. reflexivity. Qed.

Example image_int_argument :
  fst (run (process_input env_images (AInt 7)) loaded_image []) =
  Returns (error_result
             "Processing failed: 'int' object has no attribute 'lower'").
Proof. reflexivity. Qed.

Example image_cat_before_dog :
  first_label (fst (run (process_input env_images (AStr "cat_and_dog.png"))
                      loaded_image []))
  = Some "tabby cat".
Proof. reflexivity. Qed.

Example image_dog_in_directory_only :
  first_label (fst (run (process_input env_images (AStr "dogs/photo.png"))
                      loaded_image []))
  = Some "object".
Proof. reflexivity. Qed.

Example image_opened_twice :
  trace (snd (run (process_input env_images (AStr "photo_of_dog.png"))
                loaded_image []))
  = [EvOpen (AStr "photo_of_dog.png"); EvOpen (AStr "photo_of_dog.png");
     EvTiming "process_input"].
Proof. reflexivity. Qed.

(** When the file goes away between the two calls of [Image.open], the
    failure of [get_image_info] stays inside the result. *)
Example image_info_failure_kept_in_result :
  fst (run (process_input env_vanishing (AStr "dog.gif")) loaded_image []) =
  Returns
    (VDict [("image_info",
             VDict [("error",
                     VStr "[Errno 2] No such file or directory: 'dog.gif'")]);
            ("results", ImageClassificationModel.dog_guess);
            ("model_used", VStr "google/vit-base-patch16-224")]).
Proof. reflexivity. Qed.

Example get_model_info_image :
  fst (run (get_model_info tt) loaded_image []) =
  Returns [("name", VStr "google/vit-base-patch16-224");
           ("category", VStr "Image Classification");
           ("status", VStr "Loaded");
           ("description",
            VStr "Vision Transformer for image classification");
           ("input_type", VStr "Image (JPG, PNG, BMP, GIF)");
           ("output_type",
            VStr "Object classification with confidence scores");
           ("use_case", VStr "Identify objects, animals, scenes in images")].
Proof. reflexivity. Qed.

(* ===================================================================== *)
(** ** Facts about Python strings *)
(* ===================================================================== *)

Lemma str_app_assoc (a b c : string) : (a ++ b) ++ c = a ++ b ++ c.
Proof. induction a as [|x a IH]; simpl; [reflexivity | now rewrite IH]. Qed.

Lemma str_app_nil_r (a : string) : a ++ "" = a.
Proof. induction a as [|x a IH]; simpl; [reflexivity | now rewrite IH]. Qed.

Lemma str_length_app (a b : string) :
  String.length (a ++ b) = String.length a + String.length b.
Proof. induction a as [|x a IH]; simpl; [reflexivity | now rewrite IH]. Qed.

Lemma prefix_iff (p s : string) :
  String.prefix p s = true <-> exists post, s = p ++ post.
Proof.
  revert s; induction p as [|x p IH]; intros s.
  - split; [intros _; now exists s | destruct s; reflexivity].
  - destruct s as [|y s]; simpl.
    + split; [discriminate | intros [post H]; discriminate].
    + destruct (ascii_dec x y) as [->|Hxy].
      * rewrite IH. split; intros [post H]; exists post.
        -- now rewrite H.
        -- now inversion H.
      * split; [discriminate | intros [post H]; inversion H; congruence].
Qed.

(** [sub in s] holds exactly when [s] is [pre + sub + post]. *)
Lemma contains_iff (sub s : string) :
  PyStr.contains sub s = true <-> exists pre post, s = pre ++ sub ++ post.
Proof.
  induction s as [|y s IH].
  - cbn [PyStr.contains]. rewrite orb_false_r, prefix_iff. split.
    + intros [post H]. now exists "", post.
    + intros [pre [post H]]. destruct pre; [now exists post | discriminate].
  - cbn [PyStr.contains]. rewrite orb_true_iff, prefix_iff, IH. split.
    + intros [[post H] | [pre [post H]]].
      * now exists "", post.
      * exists (String y pre), post. simpl. now rewrite H.
    + intros [pre [post H]]. destruct pre as [|z pre].
      * left. now exists post.
      * right. exists pre, post. now inversion H.
Qed.

Lemma substring_whole (s : string) : substring 0 (String.length s) s = s.
Proof. induction s as [|x s IH]; simpl; [reflexivity | now rewrite IH]. Qed.

Lemma substring_skip (pre r : string) (k : nat) :
  substring (String.length pre) k (pre ++ r) = substring 0 k r.
Proof. induction pre as [|x pre IH]; simpl; [reflexivity | exact IH]. Qed.

Lemma substring_cut (s : string) (n : nat) :
  n <= String.length s ->
  s = substring 0 n s ++ substring n (String.length s - n) s.
Proof.
  revert n; induction s as [|x s IH]; intros n Hn.
  - destruct n; reflexivity.
  - destruct n as [|n]; simpl.
    + now rewrite substring_whole.
    + simpl in Hn. rewrite <- IH by lia. reflexivity.
Qed.

(** [s.endswith(suf)] holds exactly when [s] is [pre + suf]. *)
Lemma endswith_iff (s suf : string) :
  PyStr.endswith s suf = true <-> exists pre, s = pre ++ suf.
Proof.
  unfold PyStr.endswith. rewrite andb_true_iff, Nat.leb_le, String.eqb_eq.
  split.
  - intros [Hle Hsub].
    exists (substring 0 (String.length s - String.length suf) s).
    pose proof (substring_cut s (String.length s - String.length suf)) as Hcut.
    replace (String.length s - (String.length s - String.length suf))
      with (String.length suf) in Hcut by lia.
    rewrite Hsub in Hcut. apply Hcut. lia.
  - intros [pre ->]. rewrite str_length_app. split; [lia |].
    replace (String.length pre + String.length suf - String.length suf)
      with (String.length pre) by lia.
    rewrite substring_skip. apply substring_whole.
Qed.

Lemma lower_app (a b : string) :
  PyStr.lower (a ++ b) = PyStr.lower a ++ PyStr.lower b.
Proof. induction a as [|x a IH]; simpl; [reflexivity | now rewrite IH]. Qed.

Lemma lower_length (a : string) :
  String.length (PyStr.lower a) = String.length a.
Proof. induction a as [|x a IH]; simpl; [reflexivity | now rewrite IH]. Qed.

(** A split of [s.lower()] comes from a split of [s]. *)
Lemma lower_split (s x y : string) :
  PyStr.lower s = x ++ y ->
  exists a b, s = a ++ b /\ PyStr.lower a = x /\ PyStr.lower b = y.
Proof.
  revert s; induction x as [|c x IH]; intros s H.
  - exists "", s. auto.
  - destruct s as [|d s]; [discriminate |].
    simpl in H. inversion H as [[Hc Hs]].
    destruct (IH s Hs) as (a & b & -> & Ha & Hb).
    exists (String d a), b. simpl. rewrite Ha. auto.
Qed.


Lemma contains_lower_iff (w s : string) :
  PyStr.contains w (PyStr.lower s) = true <-> occurs_ci w s.
Proof.
  rewrite contains_iff. unfold occurs_ci. split.
  - intros (pre & post & H).
    destruct (lower_split _ _ _ H) as (a & r & -> & Ha & Hr).
    destruct (lower_split _ _ _ Hr) as (b & c & -> & Hb & Hc).
    now exists a, b, c.
  - intros (pre & mid & post & -> & Hm).
    exists (PyStr.lower pre), (PyStr.lower post).
    now rewrite !lower_app, Hm.
Qed.

Lemma endswith_lower_iff (s ext : string) :
  PyStr.endswith (PyStr.lower s) ext = true <-> ends_ci s ext.
Proof.
  rewrite endswith_iff. unfold ends_ci. split.
  - intros (pre & H).
    destruct (lower_split _ _ _ H) as (a & b & -> & Ha & Hb).
    now exists a, b.
  - intros (pre & e & -> & He). exists (PyStr.lower pre).
    now rewrite lower_app, He.
Qed.

Lemma lower_char_slash (c : ascii) :
  Ascii.eqb (PyStr.lower_char c) "/" = Ascii.eqb c "/".
Proof. destruct c as [[] [] [] [] [] [] [] []]; reflexivity. Qed.

Lemma contains_slash_cons (c : ascii) (s : string) :
  PyStr.contains "/" (String c s) = Ascii.eqb c "/" || PyStr.contains "/" s.
Proof.
  cbn [PyStr.contains String.prefix].
  destruct (ascii_dec "/" c) as [<- | Hne].
  - destruct s; reflexivity.
  - rewrite (proj2 (Ascii.eqb_neq c "/")) by congruence. reflexivity.
Qed.

Lemma contains_slash_app (a b : string) :
  PyStr.contains "/" (a ++ b)
  = PyStr.contains "/" a || PyStr.contains "/" b.
Proof.
  induction a as [|x a IH].
  - reflexivity.
  - change (String x a ++ b) with (String x (a ++ b)).
    now rewrite !contains_slash_cons, IH, orb_assoc.
Qed.

Lemma contains_slash_lower (s : string) :
  PyStr.contains "/" (PyStr.lower s) = PyStr.contains "/" s.
Proof.
  induction s as [|x s IH].
  - reflexivity.
  - cbn [PyStr.lower].
    now rewrite !contains_slash_cons, lower_char_slash, IH.
Qed.

Lemma basename_no_slash (e : string) :
  PyStr.contains "/" e = false -> PyStr.basename e = e.
Proof.
  destruct e as [|c e]; [reflexivity |].
  rewrite contains_slash_cons. intros H.
  apply orb_false_iff in H. destruct H as [Hc He].
  cbn [PyStr.basename]. now rewrite He, Hc.
Qed.

(** [basename] only looks at what precedes a slash-free ending. *)
Lemma basename_app (pre e : string) :
  PyStr.contains "/" e = false ->
  PyStr.basename (pre ++ e) = PyStr.basename pre ++ e.
Proof.
  intros He. induction pre as [|c pre IH].
  - now apply basename_no_slash.
  - change (String c pre ++ e) with (String c (pre ++ e)).
    cbn [PyStr.basename]. rewrite contains_slash_app, He, orb_false_r.
    destruct (PyStr.contains "/" pre); [exact IH |].
    destruct (Ascii.eqb c "/"); reflexivity.
Qed.

(** [basename p] is an ending of [p]. *)
Lemma basename_suffix (p : string) : exists d, p = d ++ PyStr.basename p.
Proof.
  induction p as [|c p [d IH]].
  - now exists "".
  - cbn [PyStr.basename]. destruct (PyStr.contains "/" p).
    + exists (String c d). simpl. now rewrite <- IH.
    + destruct (Ascii.eqb c "/").
      * now exists (String c "").
      * now exists "".
Qed.

(** Whether a path ends with an allow-listed extension is a matter of its
    base name alone. *)
Lemma allow_listed_basename (s : string) :
  allow_listed s <-> allow_listed (PyStr.basename s).
Proof.
  unfold allow_listed, ends_ci. split.
  - intros (ext & Hin & pre & e & -> & He).
    exists ext. split; [assumption |].
    exists (PyStr.basename pre), e. split; [| assumption].
    apply basename_app. rewrite <- contains_slash_lower, He.
    simpl in Hin.
    repeat (destruct Hin as [<- | Hin]; [reflexivity |]). contradiction.
  - intros (ext & Hin & pre & e & Hb & He).
    destruct (basename_suffix s) as [d Hd].
    exists ext. split; [assumption |].
    exists (d ++ pre), e. split; [| assumption].
    now rewrite str_app_assoc, <- Hb.
Qed.

(** The test of [validate_image_format] decides [allow_listed]. *)
Lemma allow_listed_iff (s : string) :
  PyStr.any_endswith (PyStr.lower s) ImageProcessorMixin.valid_formats = true
  <-> allow_listed s.
Proof.
  unfold PyStr.any_endswith, allow_listed. rewrite existsb_exists.
  split; intros (ext & Hin & H); exists ext; split; auto;
    now apply endswith_lower_iff.
Qed.

Lemma not_allow_listed_iff (s : string) :
  PyStr.any_endswith (PyStr.lower s) ImageProcessorMixin.valid_formats = false
  <-> ~ allow_listed s.
Proof.
  rewrite <- allow_listed_iff. now destruct (PyStr.any_endswith _ _).
Qed.

(* ===================================================================== *)
(** ** Methods that leave [self] alone *)
(* ===================================================================== *)

Lemma keeps_ret {A} (a : A) : keeps_self (ret a).
Proof. intros s. reflexivity. Qed.

Lemma keeps_raise {A} (e : PyExc) : keeps_self (@raise A e).
Proof. intros s. reflexivity. Qed.

Lemma keeps_lift {A} (o : Outcome A) : keeps_self (lift o).
Proof. intros s. reflexivity. Qed.

Lemma keeps_get_attr {A} (attr : Model -> A) : keeps_self (get_attr attr).
Proof. intros s. reflexivity. Qed.

Lemma keeps_emit (ev : Event) : keeps_self (emit ev).
Proof. intros s. reflexivity. Qed.

Lemma keeps_bind {A B} (c : M A) (k : A -> M B) :
  keeps_self c -> (forall a, keeps_self (k a)) -> keeps_self (bind c k).
Proof.
  intros Hc Hk s. unfold bind. specialize (Hc s).
  destruct (c s) as [[a | e] s']; simpl in *.
  - now rewrite Hk.
  - exact Hc.
Qed.

Lemma keeps_try_except {A} (body : M A) (handler : PyExc -> M A) :
  keeps_self body -> (forall e, keeps_self (handler e)) ->
  keeps_self (try_except body handler).
Proof.
  intros Hb Hh s. unfold try_except. specialize (Hb s).
  destruct (body s) as [[a | e] s']; simpl in *.
  - exact Hb.
  - now rewrite Hh.
Qed.

Lemma keeps_performance_monitor {A B} (name : string) (func : A -> M B) :
  (forall a, keeps_self (func a)) ->
  forall a, keeps_self (performance_monitor name func a).
Proof.
  intros Hf a. unfold performance_monitor.
  apply keeps_bind; [apply Hf | intros r].
  apply keeps_bind; [apply keeps_emit | intros _; apply keeps_ret].
Qed.

Lemma keeps_validate_input {B} (func : Call -> M B) :
  (forall c, keeps_self (func c)) ->
  forall c, keeps_self (validate_input func c).
Proof.
  intros Hf c. unfold validate_input.
  destruct (call_args c) as [|arg0 rest]; [apply Hf |].
  destruct (negb (truthy arg0)); [apply keeps_raise | apply Hf].
Qed.

Lemma keeps_Image_open (env : Env) (x : PyArg) : keeps_self (Image_open env x).
Proof. intros s. reflexivity. Qed.

Lemma keeps_py_lower (x : PyArg) : keeps_self (py_lower x).
Proof. destruct x; intros st; reflexivity. Qed.

Lemma keeps_py_endswith (x : PyArg) (suffix : string) :
  keeps_self (py_endswith x suffix).
Proof. destruct x; intros st; reflexivity. Qed.

Lemma keeps_py_contains (sub : string) (x : PyArg) :
  keeps_self (py_contains sub x).
Proof. destruct x; intros st; reflexivity. Qed.

Lemma keeps_py_print (env : Env) (line : string) :
  keeps_self (py_print env line).
Proof.
  unfold py_print. destruct (encode_error _ _); intros st; reflexivity.
Qed.

Lemma keeps_os_path_basename (x : PyArg) : keeps_self (os_path_basename x).
Proof. destruct x; intros st; reflexivity. Qed.

Lemma keeps_call_pipeline (p : Pipeline) (arg : PipeArg) :
  keeps_self (call_pipeline p arg).
Proof.
  destruct p as [| s | f]; intros st; reflexivity.
Qed.

Create HintDb frame.
#[local] Hint Resolve keeps_ret keeps_raise keeps_lift keeps_get_attr keeps_emit
  keeps_Image_open keeps_py_lower keeps_py_endswith keeps_py_contains
  keeps_py_print keeps_os_path_basename keeps_call_pipeline : frame.

(** Peel binds, handlers and conditionals; close the leaves from [frame]. *)
Ltac frame :=
  repeat first
    [ progress auto with frame
    | apply keeps_bind; [| intro]
    | apply keeps_try_except; [| intro]
    | match goal with
      | |- keeps_self (if ?b then _ else _) => destruct b
      end ].

Lemma keeps_text_process_body (x : PyArg) :
  keeps_self (TextClassificationModel.process_body x).
Proof. unfold TextClassificationModel.process_body. frame. Qed.

Lemma keeps_get_image_info (env : Env) (x : PyArg) :
  keeps_self (ImageProcessorMixin.get_image_info env x).
Proof. unfold ImageProcessorMixin.get_image_info. frame. Qed.

Lemma keeps_image_process_body (env : Env) (x : PyArg) :
  keeps_self (ImageClassificationModel.process_body env x).
Proof.
  unfold ImageClassificationModel.process_body,
    ImageProcessorMixin.validate_image_format.
  pose proof (keeps_get_image_info env x). frame.
Qed.

Lemma keeps_call_process_input (env : Env) (c : Call) :
  keeps_self (call_process_input env c).
Proof.
  intros s. unfold call_process_input.
  destruct (cls (self s)).
  - apply keeps_validate_input; intros y.
    apply keeps_performance_monitor; intros z.
    pose proof (keeps_text_process_body (call_value z)). frame.
  - apply keeps_validate_input; intros y.
    apply keeps_performance_monitor; intros z.
    pose proof (keeps_image_process_body env (call_value z)). frame.
Qed.

Lemma keeps_process_input (env : Env) (x : PyArg) :
  keeps_self (process_input env x).
Proof. apply keeps_call_process_input. Qed.

(* ===================================================================== *)
(** ** The shape of [process_input] *)
(* ===================================================================== *)

(** With a truthy argument the decorators step aside: the load check,
    then the [try] block with its handler, then the timing line. *)
Lemma process_input_truthy (env : Env) (x : PyArg) (m : Model)
      (t : list Event) :
  truthy x = true ->
  run (process_input env x) m t =
  if _is_loaded m then
    match run (process_body env x) m t with
    | (Returns v, s') =>
        (Returns v, mkSt (self s') (trace s' ++ [EvTiming "process_input"]))
    | (Raises e, s') =>
        (Returns (error_result ("Processing failed: " ++ exc_str e)),
         mkSt (self s') (trace s' ++ [EvTiming "process_input"]))
    end
  else
    (Returns (error_result "Model not loaded"),
     mkSt m (t ++ [EvTiming "process_input"])).
Proof.
  intros Ht. unfold run, process_input, call_process_input, process_body.
  simpl.
  destruct (cls m);
    [unfold TextClassificationModel.process_input
    |unfold ImageClassificationModel.process_input];
    unfold validate_input; cbn [call_args call_value]; rewrite Ht; simpl;
    unfold performance_monitor, bind, get_attr, try_except; simpl;
    destruct (_is_loaded m); simpl; try reflexivity.
  - destruct (TextClassificationModel.process_body x _) as [[v | e] s'];
      reflexivity.
  - destruct (ImageClassificationModel.process_body env x _) as [[v | e] s'];
      reflexivity.
Qed.

(** With a falsy argument [validate_input] raises before the method is
    entered. *)
Lemma process_input_falsy (env : Env) (x : PyArg) (m : Model)
      (t : list Event) :
  truthy x = false ->
  run (process_input env x) m t =
  (Raises (mkExc ValueError "Input cannot be empty"), mkSt m t).
Proof.
  intros Hf. unfold run, process_input, call_process_input. simpl.
  destruct (cls m);
    [unfold TextClassificationModel.process_input
    |unfold ImageClassificationModel.process_input];
    unfold validate_input; cbn [call_args]; rewrite Hf; reflexivity.
Qed.

(** A keyword call leaves [args] empty, so [validate_input] steps aside
    whatever the argument is. *)
Lemma process_input_keyword_eval (env : Env) (x : PyArg) (m : Model)
      (t : list Event) :
  run (process_input_keyword env x) m t =
  if _is_loaded m then
    match run (process_body env x) m t with
    | (Returns v, s') =>
        (Returns v, mkSt (self s') (trace s' ++ [EvTiming "process_input"]))
    | (Raises e, s') =>
        (Returns (error_result ("Processing failed: " ++ exc_str e)),
         mkSt (self s') (trace s' ++ [EvTiming "process_input"]))
    end
  else
    (Returns (error_result "Model not loaded"),
     mkSt m (t ++ [EvTiming "process_input"])).
Proof.
  unfold run, process_input_keyword, call_process_input, process_body.
  simpl.
  destruct (cls m);
    [unfold TextClassificationModel.process_input
    |unfold ImageClassificationModel.process_input];
    unfold validate_input; cbn [call_args call_value];
    unfold performance_monitor, bind, get_attr, try_except; simpl;
    destruct (_is_loaded m); simpl; try reflexivity.
  - destruct (TextClassificationModel.process_body x _) as [[v | e] s'];
      reflexivity.
  - destruct (ImageClassificationModel.process_body env x _) as [[v | e] s'];
      reflexivity.
Qed.

(** What the [try] block of the text class computes. *)
Lemma text_body_eval (x : PyArg) (m : Model) (t : list Event) :
  run (TextClassificationModel.process_body x) m t =
  match TextProcessorMixin.clean_text x with
  | Raises e => (Raises e, mkSt m t)
  | Returns cleaned =>
      if Nat.leb (String.length cleaned) 1000 then
        if is_mock (_pipeline m) "mock_sentiment_pipeline" then
          (Returns
             (VDict [("input", VStr cleaned);
                     ("results",
                      VList [prediction
                               (if PyStr.contains "good" (PyStr.lower cleaned)
                                   || PyStr.contains "great"
                                        (PyStr.lower cleaned)
                                then "POSITIVE" else "NEGATIVE") 0.95]);
                     ("model_used", VStr (_model_name m))]),
           mkSt m t)
        else
          match run (call_pipeline (_pipeline m) (ArgText cleaned)) m t with
          | (Returns results, s') =>
              (Returns (VDict [("input", VStr cleaned);
                               ("results", results);
                               ("model_used", VStr (_model_name m))]),
               s')
          | (Raises e, s') => (Raises e, s')
          end
      else
        (Returns (error_result "Text too long (max 1000 characters)"),
         mkSt m t)
  end.
Proof.
  unfold run, TextClassificationModel.process_body,
    TextProcessorMixin.validate_text_length, bind, lift.
  destruct (TextProcessorMixin.clean_text x) as [cleaned | e];
    [| reflexivity].
  destruct (Nat.leb (String.length cleaned) 1000); simpl; [| reflexivity].
  unfold get_attr. simpl.
  destruct (is_mock (_pipeline m) "mock_sentiment_pipeline"); simpl;
    [reflexivity |].
  destruct (_pipeline m) as [| p | f]; reflexivity.
Qed.

(** The [try] block of the text class returns a [dict] when it returns. *)
Lemma text_body_dict (x : PyArg) (m : Model) (t : list Event) (v : PyVal)
      (s' : St) :
  run (TextClassificationModel.process_body x) m t = (Returns v, s') ->
  exists d, v = VDict d.
Proof.
  rewrite text_body_eval.
  destruct (TextProcessorMixin.clean_text x) as [cleaned | e];
    [| intros H; discriminate H].
  destruct (Nat.leb _ 1000).
  - destruct (is_mock _ _).
    + intros H; inversion H; eauto.
    + destruct (run (call_pipeline _ _) m t) as [[r | e] s''];
        intros H; inversion H; eauto.
  - intros H; inversion H. unfold error_result. eauto.
Qed.

(** The [try] block of the image class returns a [dict] when it returns. *)
Lemma image_body_dict (env : Env) (x : PyArg) (m : Model) (t : list Event)
      (v : PyVal) (s' : St) :
  run (ImageClassificationModel.process_body env x) m t = (Returns v, s') ->
  exists d, v = VDict d.
Proof.
  unfold run, ImageClassificationModel.process_body, bind.
  destruct (ImageProcessorMixin.validate_image_format x _) as [[ok | e] s1];
    [| intros H; discriminate H].
  destruct ok; cbn [negb].
  2:{ intros H; inversion H. unfold error_result. eauto. }
  unfold Image_open at 1.
  destruct (pil_open env (trace s1) x) as [img | e];
    [| intros H; discriminate H].
  destruct (ImageProcessorMixin.get_image_info env x _) as [[info | e] s3];
    [| intros H; discriminate H].
  unfold get_attr.
  match goal with
  | |- context [let (_, _) := ?c s3 in _] =>
      destruct (c s3) as [[r | e] s4]; [| intros H; discriminate H]
  end.
  intros H; inversion H; eauto.
Qed.

(** The [try] block of either class returns a [dict] when it returns. *)
Lemma process_body_dict (env : Env) (x : PyArg) (m : Model) (t : list Event)
      (v : PyVal) (s' : St) :
  run (process_body env x) m t = (Returns v, s') -> exists d, v = VDict d.
Proof.
  unfold run, process_body. simpl. destruct (cls m).
  - apply text_body_dict.
  - apply image_body_dict.
Qed.

(* ===================================================================== *)
(** ** Properties of [process_input] *)
(* ===================================================================== *)

(** C1: for either class, any truthy argument and any state of the
    instance, [process_input] returns a [dict] and raises nothing; and when
    the instance is loaded and a statement of the [try] block raises [e],
    the step that fails being the preprocessing or the pipeline call, the
    [dict] returned is [{"error": "Processing failed: " + str(e)}]. *)
Theorem C1_process_input_returns_dict (env : Env) (m : Model)
        (t : list Event) (x : PyArg) :
  truthy x = true ->
  exists d st,
    run (process_input env x) m t = (Returns (VDict d), st) /\
    (forall e st',
        _is_loaded m = true ->
        run (process_body env x) m t = (Raises e, st') ->
        d = [("error", VStr ("Processing failed: " ++ exc_str e))]).
Proof.
  intros Ht. rewrite (process_input_truthy env x m t Ht).
  destruct (_is_loaded m).
  - destruct (run (process_body env x) m t) as [[v | e] s'] eqn:Hb.
    + destruct (process_body_dict _ _ _ _ _ _ Hb) as [d ->].
      eexists _, _. split; [reflexivity |]. intros e st' _ H. discriminate H.
    + eexists _, _. split; [reflexivity |].
      intros e' st' _ H. now inversion H.
  - eexists _, _. split; [reflexivity |]. intros e st' H. discriminate H.
Qed.

Lemma C1_witness :
  exists d st,
    run (process_input env_offline (AStr "a fine day")) failing_text [] =
    (Returns (VDict d), st) /\
    d = [("error", VStr "Processing failed: CUDA out of memory")].
Proof.
  destruct (C1_process_input_returns_dict env_offline failing_text []
              (AStr "a fine day") eq_refl) as (d & st & Hrun & Hexc).
  exists d, st. split; [exact Hrun |].
  apply (Hexc (mkExc (OtherException "RuntimeError") "CUDA out of memory")
              (mkSt failing_text [EvInfer (ArgText "a fine day")]));
    reflexivity.
Defined.




(** C3: for either class and any truthy argument, when the loaded flag is
    false [process_input] returns [{"error": "Model not loaded"}] and
    raises nothing; only the timing line is printed. *)
Theorem C3_not_loaded_soft_error (env : Env) (m : Model) (t : list Event)
        (x : PyArg) :
  truthy x = true ->
  _is_loaded m = false ->
  run (process_input env x) m t =
  (Returns (VDict [("error", VStr "Model not loaded")]),
   mkSt m (t ++ [EvTiming "process_input"])).
Proof.
  intros Ht Hl. rewrite (process_input_truthy env x m t Ht), Hl. reflexivity.
Qed.

Lemma C3_witness :
  run (process_input env_images (AStr "photo_of_dog.png"))
      ImageClassificationModel.__init__ [] =
  (Returns (VDict [("error", VStr "Model not loaded")]),
   mkSt ImageClassificationModel.__init__ [EvTiming "process_input"]).
Proof.
  apply (C3_not_loaded_soft_error env_images ImageClassificationModel.__init__
           [] (AStr "photo_of_dog.png")); reflexivity.
Defined.

(** C9: for either class, any argument and any starting state,
    [process_input] leaves the attributes of the instance as they were, in
    particular the loaded flag, the model name and the category, whether
    it returns a result, returns an error [dict] or raises. *)
Theorem C9_process_input_keeps_state (env : Env) (m : Model)
        (t : list Event) (x : PyArg) :
  let after := self (snd (run (process_input env x) m t)) in
  after = m /\
  _is_loaded after = _is_loaded m /\
  _model_name after = _model_name m /\
  _category after = _category m.
Proof.
  cbv zeta. pose proof (keeps_process_input env x (mkSt m t)) as H.
  unfold run. simpl in H. rewrite H. auto.
Qed.

Lemma process_body_text (env : Env) (x : PyArg) (m : Model)
      (t : list Event) :
  cls m = TextCls ->
  run (process_body env x) m t =
  run (TextClassificationModel.process_body x) m t.
Proof. intros Hc. unfold run, process_body. simpl. now rewrite Hc. Qed.

Lemma process_body_image (env : Env) (x : PyArg) (m : Model)
      (t : list Event) :
  cls m = ImageCls ->
  run (process_body env x) m t =
  run (ImageClassificationModel.process_body env x) m t.
Proof. intros Hc. unfold run, process_body. simpl. now rewrite Hc. Qed.

(** C4: for the text class, loaded, with the mock marker in [_pipeline],
    and a truthy argument that [clean_text] turns into a cleaned text of
    at most 1000 characters:
    [process_input] returns the cleaned text, the model name and a
    one-entry result list whose label is ["POSITIVE"] when the cleaned
    text contains "good" or "great" in any letter case and ["NEGATIVE"]
    otherwise, with score 0.95 in both cases. *)
Theorem C4_mock_sentiment (env : Env) (m : Model) (t : list Event)
        (x : PyArg) (cleaned : string) :
  cls m = TextCls ->
  _is_loaded m = true ->
  _pipeline m = PipeStr "mock_sentiment_pipeline" ->
  truthy x = true ->
  TextProcessorMixin.clean_text x = Returns cleaned ->
  String.length cleaned <= 1000 ->
  exists label,
    fst (run (process_input env x) m t) =
    Returns (VDict [("input", VStr cleaned);
                    ("results", VList [prediction label 0.95]);
                    ("model_used", VStr (_model_name m))]) /\
    (occurs_ci "good" cleaned \/ occurs_ci "great" cleaned ->
     label = "POSITIVE") /\
    (~ (occurs_ci "good" cleaned \/ occurs_ci "great" cleaned) ->
     label = "NEGATIVE").
Proof.
  intros Hc Hl Hp Ht Hclean Hlen.
  rewrite (process_input_truthy env x m t Ht), Hl.
  rewrite (process_body_text env x m t Hc), text_body_eval, Hclean.
  rewrite (proj2 (Nat.leb_le _ _) Hlen), Hp. cbn [is_mock].
  rewrite String.eqb_refl. cbn [fst].
  eexists. split; [reflexivity |].
  rewrite <- !contains_lower_iff.
  destruct (PyStr.contains "good" _); destruct (PyStr.contains "great" _);
    cbn [orb]; split; intros H; try reflexivity;
    try (exfalso; apply H; auto; fail);
    destruct H; discriminate.
Qed.

Lemma C4_witness :
  exists label,
    fst (run (process_input env_offline (AStr "this is great")) loaded_text [])
    = Returns (VDict [("input", VStr "this is great");
                      ("results", VList [prediction label 0.95]);
                      ("model_used", VStr (_model_name loaded_text))]) /\
    label = "POSITIVE".
Proof.
  destruct (C4_mock_sentiment env_offline loaded_text []
              (AStr "this is great") "this is great"
              eq_refl eq_refl eq_refl eq_refl eq_refl)
    as (label & Hrun & Hpos & _).
  - apply Nat.leb_le. reflexivity.
  - exists label. split; [exact Hrun |].
    apply Hpos. right. exists "this is ", "great", "". split; reflexivity.
Defined.

(** C5: for the text class with the loaded flag set and a truthy argument
    that [clean_text] turns into a cleaned text:
    when the cleaned text has more than 1000 characters, as for
    ["a" * 1001], [process_input] returns [{"error": "Text too long (max
    1000 characters)"}] and raises nothing; when it has 1000 characters
    or fewer the guard passes and that error is not the result. *)
Theorem C5_text_length_guard (env : Env) (m : Model) (t : list Event)
        (x : PyArg) (cleaned : string) :
  cls m = TextCls ->
  _is_loaded m = true ->
  truthy x = true ->
  TextProcessorMixin.clean_text x = Returns cleaned ->
  (1000 < String.length cleaned ->
   run (process_input env x) m t =
   (Returns (VDict [("error", VStr "Text too long (max 1000 characters)")]),
    mkSt m (t ++ [EvTiming "process_input"]))) /\
  (String.length cleaned <= 1000 ->
   TextProcessorMixin.validate_text_length cleaned 1000 = true /\
   fst (run (process_input env x) m t) <>
   Returns (VDict [("error", VStr "Text too long (max 1000 characters)")])).
Proof.
  intros Hc Hl Ht Hclean.
  rewrite (process_input_truthy env x m t Ht), Hl.
  rewrite (process_body_text env x m t Hc), text_body_eval, Hclean.
  unfold TextProcessorMixin.validate_text_length. split.
  - intros Hlen. rewrite (proj2 (Nat.leb_gt _ _) Hlen). reflexivity.
  - intros Hlen. rewrite (proj2 (Nat.leb_le _ _) Hlen).
    split; [reflexivity |].
    destruct (is_mock _ _); [discriminate |].
    destruct (run (call_pipeline _ _) m t) as [[r | e] s']; discriminate.
Qed.

Lemma C5_witness :
  run (process_input env_offline (AStr (PyStr.mul "a" 1001))) loaded_text []
  = (Returns (VDict [("error", VStr "Text too long (max 1000 characters)")]),
     mkSt loaded_text [EvTiming "process_input"]) /\
  fst (run (process_input env_offline (AStr (PyStr.mul "a" 1000)))
         loaded_text [])
  <> Returns (VDict [("error", VStr "Text too long (max 1000 characters)")]).
Proof.
  split.
  - assert (Hclean : TextProcessorMixin.clean_text (AStr (PyStr.mul "a" 1001))
                     = Returns (PyStr.mul "a" 1001))
      by (vm_compute; reflexivity).
    apply (proj1 (C5_text_length_guard env_offline loaded_text []
                    (AStr (PyStr.mul "a" 1001)) (PyStr.mul "a" 1001)
                    eq_refl eq_refl eq_refl Hclean)).
    apply Nat.ltb_lt. vm_compute. reflexivity.
  - assert (Hclean : TextProcessorMixin.clean_text (AStr (PyStr.mul "a" 1000))
                     = Returns (PyStr.mul "a" 1000))
      by (vm_compute; reflexivity).
    apply (proj2 (C5_text_length_guard env_offline loaded_text []
                    (AStr (PyStr.mul "a" 1000)) (PyStr.mul "a" 1000)
                    eq_refl eq_refl eq_refl Hclean)).
    apply Nat.leb_le. vm_compute. reflexivity.
Defined.

(** On a [str] the format check is the test on the lowered path, and
    touches nothing. *)
Lemma any_format_str (s : string) (fmts : list string) (st : St) :
  ImageProcessorMixin.any_format (AStr s) fmts st =
  (Returns (PyStr.any_endswith (PyStr.lower s) fmts), st).
Proof.
  induction fmts as [| fmt rest IH]; [reflexivity |].
  cbn [ImageProcessorMixin.any_format PyStr.any_endswith existsb].
  unfold bind. cbn [py_lower py_endswith ret].
  destruct (PyStr.endswith (PyStr.lower s) fmt); cbn [orb];
    [reflexivity | exact IH].
Qed.

(** What the [try] block of the image class computes on a [str]. *)
Lemma image_body_eval (env : Env) (s : string) (m : Model) (t : list Event) :
  let t1 := (t ++ [EvOpen (AStr s)])%list in
  let t2 := (t1 ++ [EvOpen (AStr s)])%list in
  run (ImageClassificationModel.process_body env (AStr s)) m t =
  if PyStr.any_endswith (PyStr.lower s) ImageProcessorMixin.valid_formats then
    match pil_open env t (AStr s) with
    | Raises e => (Raises e, mkSt m t1)
    | Returns image =>
        let info :=
          match pil_open env t1 (AStr s) with
          | Returns img => ImageProcessorMixin.image_info_of img
          | Raises e => VDict [("error", VStr (exc_str e))]
          end in
        if is_mock (_pipeline m) "mock_image_pipeline" then
          (Returns
             (VDict [("image_info", info);
                     ("results",
                      ImageClassificationModel.top5
                        (ImageClassificationModel.mock_results
                           (PyStr.lower (PyStr.basename s))));
                     ("model_used", VStr (_model_name m))]),
           mkSt m t2)
        else
          match run (call_pipeline (_pipeline m) (ArgImage image)) m t2 with
          | (Returns r, s') =>
              (Returns
                 (VDict [("image_info", info);
                         ("results", ImageClassificationModel.top5 r);
                         ("model_used", VStr (_model_name m))]),
               s')
          | (Raises e, s') => (Raises e, s')
          end
    end
  else (Returns (error_result "Invalid image format"), mkSt m t).
Proof.
  cbv zeta.
  unfold run, ImageClassificationModel.process_body,
    ImageProcessorMixin.validate_image_format.
  unfold bind at 1. rewrite any_format_str.
  destruct (PyStr.any_endswith _ _); cbn [negb]; [| reflexivity].
  unfold bind.
  unfold Image_open at 1. cbn [self trace].
  destruct (pil_open env t (AStr s)) as [image | e]; [| reflexivity].
  unfold ImageProcessorMixin.get_image_info, try_except, bind, Image_open.
  cbn [self trace].
  destruct (pil_open env (t ++ [EvOpen (AStr s)]) (AStr s)) as [img | e];
    unfold get_attr, ret; cbn [self trace];
    (destruct (is_mock (_pipeline m) "mock_image_pipeline");
     [cbn [os_path_basename py_lower py_contains ret];
      unfold ImageClassificationModel.mock_results;
      destruct (PyStr.contains "cat" _);
        [reflexivity | destruct (PyStr.contains "dog" _); reflexivity]
     | destruct (_pipeline m) as [| p | f]; try reflexivity;
       unfold call_pipeline, bind, emit, lift; cbn [self trace];
       destruct (f (ArgImage image)); reflexivity]).
Qed.

Lemma top5_mock_results (filename : string) :
  ImageClassificationModel.top5
    (ImageClassificationModel.mock_results filename)
  = ImageClassificationModel.mock_results filename.
Proof.
  unfold ImageClassificationModel.mock_results.
  destruct (PyStr.contains "cat" filename);
    [| destruct (PyStr.contains "dog" filename)]; reflexivity.
Qed.

(** C6: for the image class with the loaded flag set and a non-empty path:
    the allow-list is exactly .jpg, .jpeg, .png, .bmp, .gif; a path that
    ends with none of them, letter case ignored, makes [process_input]
    return [{"error": "Invalid image format"}] without raising and without
    any call to [Image.open], the trace gaining the timing line only; a
    path that ends with one of them in any letter case passes
    [validate_image_format] and does not get that error; and it is the
    file name, the part after the last slash, that decides. *)
Theorem C6_image_extension_guard (env : Env) (m : Model) (t : list Event)
        (s : string) :
  cls m = ImageCls ->
  _is_loaded m = true ->
  s <> "" ->
  ImageProcessorMixin.valid_formats = [".jpg"; ".jpeg"; ".png"; ".bmp"; ".gif"]
  /\
  (allow_listed s <-> allow_listed (PyStr.basename s)) /\
  (~ allow_listed s ->
   run (process_input env (AStr s)) m t =
   (Returns (VDict [("error", VStr "Invalid image format")]),
    mkSt m (t ++ [EvTiming "process_input"]))) /\
  (allow_listed s ->
   run (ImageProcessorMixin.validate_image_format (AStr s)) m t =
   (Returns true, mkSt m t) /\
   fst (run (process_input env (AStr s)) m t) <>
   Returns (VDict [("error", VStr "Invalid image format")])).
Proof.
  intros Hc Hl Hs. split; [reflexivity |].
  split; [apply allow_listed_basename |].
  assert (Ht : truthy (AStr s) = true).
  { simpl. destruct s; [contradiction | reflexivity]. }
  rewrite (process_input_truthy env _ m t Ht), Hl.
  rewrite (process_body_image env _ m t Hc), image_body_eval. cbv zeta.
  split.
  - intros Hno. apply not_allow_listed_iff in Hno. rewrite Hno. reflexivity.
  - intros Hyes. apply allow_listed_iff in Hyes. split.
    + unfold run, ImageProcessorMixin.validate_image_format.
      rewrite any_format_str. now rewrite Hyes.
    + rewrite Hyes.
      destruct (pil_open env t (AStr s)); [| discriminate].
      destruct (is_mock _ _); [discriminate |].
      destruct (run (call_pipeline _ _) m _) as [[r | e] s']; discriminate.
Qed.

Lemma C6_witness :
  run (process_input env_images (AStr "notes.txt")) loaded_image [] =
  (Returns (VDict [("error", VStr "Invalid image format")]),
   mkSt loaded_image [EvTiming "process_input"]) /\
  run (ImageProcessorMixin.validate_image_format (AStr "Holiday.JPeG"))
      loaded_image [] = (Returns true, mkSt loaded_image []).
Proof.
  assert (Hne : forall a r, String a r <> "") by (intros a r H; discriminate H).
  split.
  - apply (proj1 (proj2 (proj2 (C6_image_extension_guard env_images
                                  loaded_image [] "notes.txt"
                                  eq_refl eq_refl (Hne _ _))))).
    apply not_allow_listed_iff. reflexivity.
  - apply (proj2 (proj2 (proj2 (C6_image_extension_guard env_images
                                  loaded_image [] "Holiday.JPeG"
                                  eq_refl eq_refl (Hne _ _))))).
    apply allow_listed_iff. reflexivity.
Defined.

(** C7, as the code has it: for the image class, loaded, with the mock
    marker in [_pipeline], a non-empty allow-listed path that [Image.open]
    opens: [process_input] returns a result whose ranked list is the cat
    pair when the base name contains "cat" in any letter case, the dog
    pair when it contains "dog" and not "cat", and the generic triple
    otherwise; for "photo_of_dog.png" the first label is "golden
    retriever". *)
Theorem C7_mock_image_when_opened (env : Env) (m : Model) (t : list Event)
        (s : string) (image : PILImage) :
  cls m = ImageCls ->
  _is_loaded m = true ->
  _pipeline m = PipeStr "mock_image_pipeline" ->
  s <> "" ->
  PyStr.any_endswith (PyStr.lower s) ImageProcessorMixin.valid_formats = true ->
  pil_open env t (AStr s) = Returns image ->
  exists info results,
    fst (run (process_input env (AStr s)) m t) =
    Returns (VDict [("image_info", info);
                    ("results", results);
                    ("model_used", VStr (_model_name m))]) /\
    (occurs_ci "cat" (PyStr.basename s) ->
     results = ImageClassificationModel.cat_guess) /\
    (~ occurs_ci "cat" (PyStr.basename s) ->
     occurs_ci "dog" (PyStr.basename s) ->
     results = ImageClassificationModel.dog_guess) /\
    (~ occurs_ci "cat" (PyStr.basename s) ->
     ~ occurs_ci "dog" (PyStr.basename s) ->
     results = ImageClassificationModel.generic_guess) /\
    (s = "photo_of_dog.png" ->
     first_label (fst (run (process_input env (AStr s)) m t))
     = Some "golden retriever").
Proof.
  intros Hc Hl Hp Hs Hfmt Hopen.
  assert (Ht : truthy (AStr s) = true).
  { simpl. destruct s; [contradiction | reflexivity]. }
  rewrite (process_input_truthy env _ m t Ht), Hl.
  rewrite (process_body_image env _ m t Hc), image_body_eval. cbv zeta.
  rewrite Hfmt, Hopen, Hp. cbn [is_mock]. rewrite String.eqb_refl.
  rewrite top5_mock_results. cbn [fst].
  eexists _, _. split; [reflexivity |].
  unfold ImageClassificationModel.mock_results.
  rewrite <- !contains_lower_iff.
  repeat split.
  - intros H. now rewrite H.
  - intros Hn H. destruct (PyStr.contains "cat" _); [now elim Hn |].
    now rewrite H.
  - intros Hn Hn'. destruct (PyStr.contains "cat" _); [now elim Hn |].
    destruct (PyStr.contains "dog" _); [now elim Hn' | reflexivity].
  - intros ->. reflexivity.
Qed.

Lemma C7_witness :
  first_label
    (fst (run (process_input env_images (AStr "photo_of_dog.png"))
            loaded_image []))
  = Some "golden retriever".
Proof.
  assert (Hne : "photo_of_dog.png" <> "") by (intros H; discriminate H).
  destruct (C7_mock_image_when_opened env_images loaded_image []
              "photo_of_dog.png" (mkImage (Some "PNG") "RGB" (640, 480)%Z)
              eq_refl eq_refl eq_refl Hne eq_refl eq_refl)
    as (info & results & _ & _ & _ & _ & Hdog).
  apply Hdog. reflexivity.
Defined.

(** C7 as stated fails: with the mock marker in [_pipeline] but no file
    named "photo_of_dog.png" to open, [Image.open] raises inside the [try]
    block and the call returns the error [dict]; there is no ranked list
    and no first label. *)
Lemma C7_counterexample :
  cls loaded_image = ImageCls /\
  _is_loaded loaded_image = true /\
  _pipeline loaded_image = PipeStr "mock_image_pipeline" /\
  fst (run (process_input env_offline (AStr "photo_of_dog.png"))
         loaded_image []) =
  Returns (VDict [("error",
                   VStr ("Processing failed: [Errno 2] No such file or "
                         ++ "directory: 'photo_of_dog.png'"))]) /\
  first_label
    (fst (run (process_input env_offline (AStr "photo_of_dog.png"))
            loaded_image []))
  <> Some "golden retriever".
Proof. repeat split; try reflexivity. discriminate. Qed.

(* ===================================================================== *)
(** ** Properties of [ModelFactory] *)
(* ===================================================================== *)

Lemma new_instance_spec (c : ModelClass) (h : Heap) :
  let (r, h') := new_instance c h in
  heap_get h' r = Some (construct c) /\
  heap_get h r = None /\
  (forall r' m', heap_get h r' = Some m' ->
                 r' <> r /\ heap_get h' r' = Some m').
Proof.
  unfold new_instance, heap_get. repeat split.
  - rewrite nth_error_app2 by lia. now rewrite Nat.sub_diag.
  - apply nth_error_None. lia.
  - intros ->. assert (nth_error h (List.length h) = None) as Hn
        by (apply nth_error_None; lia). congruence.
  - rewrite nth_error_app1; [assumption |].
    apply nth_error_Some. congruence.
Qed.

Lemma registry_mem_iff (k : string) :
  ModelFactory.registry_mem ModelFactory._models k = true
  <-> In k ModelFactory.get_available_models.
Proof.
  unfold ModelFactory.registry_mem, ModelFactory.get_available_models.
  rewrite existsb_exists, in_map_iff. split.
  - intros ([k' c] & Hin & Heq). apply String.eqb_eq in Heq.
    exists (k', c). auto.
  - intros ([k' c] & Heq & Hin). exists (k', c). split; [assumption |].
    apply String.eqb_eq. exact Heq.
Qed.

Lemma registry_get_registered (k : string) (c : ModelClass) :
  In (k, c) ModelFactory._models ->
  ModelFactory.registry_get ModelFactory._models k = Some c.
Proof.
  simpl. intros [H | [H | []]]; inversion H; reflexivity.
Qed.

(** The two outcomes of [create_model]. *)
Lemma create_model_outcomes (model_type : string) (h : Heap) :
  (~ In model_type ModelFactory.get_available_models ->
   ModelFactory.create_model model_type h =
   (Raises (mkExc ValueError ("Unknown model type: " ++ model_type)), h)) /\
  (forall c,
      In (model_type, c) ModelFactory._models ->
      exists r h',
        ModelFactory.create_model model_type h = (Returns r, h') /\
        heap_get h' r = Some (construct c) /\
        cls (construct c) = c /\
        heap_get h r = None /\
        (forall r' m', heap_get h r' = Some m' ->
                       r' <> r /\ heap_get h' r' = Some m')).
Proof.
  unfold ModelFactory.create_model. split.
  - intros Hno.
    destruct (ModelFactory.registry_mem _ _) eqn:Hmem; [| reflexivity].
    apply registry_mem_iff in Hmem. contradiction.
  - intros c Hin.
    assert (Hmem : ModelFactory.registry_mem ModelFactory._models model_type
                   = true).
    { apply registry_mem_iff. apply (in_map fst) in Hin. exact Hin. }
    rewrite Hmem, (registry_get_registered _ _ Hin). cbn [negb].
    pose proof (new_instance_spec c h) as Hnew.
    destruct (new_instance c h) as [r h'].
    destruct Hnew as (Hget & Hfresh & Hold).
    exists r, h'. split; [reflexivity |]. split; [assumption |].
    split; [destruct c; reflexivity |]. split; assumption.
Qed.


(** C8: an identifier that is not a key of the registry makes
    [create_model] raise [ValueError("Unknown model type: " + identifier)]
    and allocate nothing; a registered identifier makes it return a
    reference to a new instance, built by the constructor of the mapped
    class, at an address that named no instance before, every earlier
    instance staying where and what it was. *)
Theorem C8_create_model (model_type : string) (h : Heap) :
  (~ In model_type ModelFactory.get_available_models ->
   ModelFactory.create_model model_type h =
   (Raises (mkExc ValueError ("Unknown model type: " ++ model_type)), h)) /\
  (forall c,
      In (model_type, c) ModelFactory._models ->
      exists r h',
        ModelFactory.create_model model_type h = (Returns r, h') /\
        heap_get h' r = Some (construct c) /\
        cls (construct c) = c /\
        heap_get h r = None /\
        (forall r' m', heap_get h r' = Some m' ->
                       r' <> r /\ heap_get h' r' = Some m')).
Proof. apply create_model_outcomes. Qed.

Lemma C8_witness :
  ModelFactory.create_model "nonexistent" [] =
  (Raises (mkExc ValueError "Unknown model type: nonexistent"), []) /\
  exists r h',
    ModelFactory.create_model "Image Classification"
      [TextClassificationModel.__init__] = (Returns r, h') /\
    heap_get h' r = Some ImageClassificationModel.__init__ /\
    r <> 0.
Proof.
  split.
  - apply (proj1 (C8_create_model "nonexistent" [])).
    intros H. apply registry_mem_iff in H. discriminate H.
  - destruct (proj2 (C8_create_model "Image Classification"
                       [TextClassificationModel.__init__]) ImageCls)
      as (r & h' & Hrun & Hget & _ & _ & Hold).
    + right. left. reflexivity.
    + exists r, h'. split; [exact Hrun |]. split; [exact Hget |].
      intros ->.
      apply (proj1 (Hold 0 TextClassificationModel.__init__ eq_refl)).
      reflexivity.
Defined.

(** Two calls in a row never hand out the same instance. *)
Lemma create_model_twice_distinct (k1 k2 : string) (h h1 h2 : Heap)
      (r1 r2 : Ref) :
  ModelFactory.create_model k1 h = (Returns r1, h1) ->
  ModelFactory.create_model k2 h1 = (Returns r2, h2) ->
  r1 <> r2.
Proof.
  unfold ModelFactory.create_model, new_instance.
  destruct (negb _); [discriminate |].
  destruct (ModelFactory.registry_get _ k1); [| discriminate].
  intros H1. inversion H1; subst.
  destruct (negb _); [discriminate |].
  destruct (ModelFactory.registry_get _ k2); [| discriminate].
  intros H2. inversion H2; subst.
  rewrite length_app. simpl. lia.
Qed.

(** C10: [get_available_models] is the list ["Text-to-Image",
    "Image Classification"], in registration order; [create_model
    "Text-to-Image"] builds an instance of the text class, whose
    [get_model_info()["category"]] is "Text Classification", a string
    different from the identifier it is registered under. *)
Theorem C10_available_models_and_category :
  ModelFactory.get_available_models =
  ["Text-to-Image"; "Image Classification"] /\
  (forall h : Heap,
      exists r h' m,
        ModelFactory.create_model "Text-to-Image" h = (Returns r, h') /\
        heap_get h' r = Some m /\
        cls m = TextCls /\
        forall t, exists d st,
            run (get_model_info tt) m t = (Returns d, st) /\
            dict_get d "category" = Some (VStr "Text Classification")) /\
  "Text-to-Image" <> "Text Classification".
Proof.
  split; [reflexivity |]. split; [| discriminate].
  intros h.
  destruct (proj2 (create_model_outcomes "Text-to-Image" h) TextCls)
    as (r & h' & Hrun & Hget & _ & _ & _).
  { left. reflexivity. }
  exists r, h', (construct TextCls). repeat split; try assumption.
  intros t. eexists _, _. split; reflexivity.
Qed.

(* ===================================================================== *)
(** ** The setter and the callers on concrete inputs *)
(* ===================================================================== *)

Example setter_keeps_spaces :
  _model_name
    (self (snd (run (AIModelBase.model_name_setter (AStr " my model "))
                  loaded_text [])))
  = " my model ".
Proof. reflexivity. Qed.

Example setter_rejects_int :
  fst (run (AIModelBase.model_name_setter (AInt 3)) loaded_text [])
  = Raises (mkExc ValueError "Model name must be a non-empty string").
Proof. reflexivity. Qed.

Example input_data_text_mode :
  fst (InputPanel._get_input_data
         (InputPanel.mkWidgets "Text"
            ("  this is great " ++ String "010" "") "")
         (app_with loaded_text))
  = Returns (Some [("type", AStr "text"); ("data", AStr "this is great")]).
Proof. reflexivity. Qed.

Example input_data_only_newline :
  InputPanel._get_input_data
    (InputPanel.mkWidgets "Text" (String "010" "") "photo.png")
    (app_with loaded_text)
  = (Returns None,
     showing (app_with loaded_text)
       (ShowWarning "Warning" "Please enter some text")).
Proof. reflexivity. Qed.

Example click_text_on_text_model :
  screen (snd (InputPanel._process_input env_offline
                 (InputPanel.mkWidgets "Text" "so good" "") 1
                 (app_with loaded_text)))
  = [DisplayOutput
       [("model_number", VInt 1);
        ("input_type", VStr "text");
        ("model_name",
         VStr "distilbert-base-uncased-finetuned-sst-2-english");
        ("result",
         VDict [("input", VStr "so good");
                ("results", VList [prediction "POSITIVE" 0.95]);
                ("model_used",
                 VStr "distilbert-base-uncased-finetuned-sst-2-english")])]].
Proof. reflexivity. Qed.

Example missing_type_key_is_displayed :
  screen (snd (MainApplication._process_with_model env_offline
                 [("data", AStr "so good")] 1 (app_with loaded_text)))
  = [DisplayOutput
       [("error", VStr "'type'");
        ("model_name",
         VStr "distilbert-base-uncased-finetuned-sst-2-english")]].
Proof. reflexivity. Qed.

Example validate_without_model :
  fst (MainApplication._validate_input_compatibility
         [("type", AStr "text")] (mkApp None [] []))
  = Raises (mkExc AttributeError
              "'NoneType' object has no attribute 'get_model_info'").
Proof. reflexivity. Qed.

(* ===================================================================== *)
(** ** More on the mixins: cleaning text *)
(* ===================================================================== *)

Lemma replace_map_chars (old new : ascii) (s : string) :
  PyStr.replace old new s
  = map_chars (fun c => if Ascii.eqb c old then new else c) s.
Proof. induction s as [|c s IH]; simpl; [reflexivity | now rewrite IH]. Qed.

Lemma map_chars_compose (f g : ascii -> ascii) (s : string) :
  map_chars f (map_chars g s) = map_chars (fun c => f (g c)) s.
Proof. induction s as [|c s IH]; simpl; [reflexivity | now rewrite IH]. Qed.

Lemma map_chars_length (f : ascii -> ascii) (s : string) :
  String.length (map_chars f s) = String.length s.
Proof. induction s as [|c s IH]; simpl; [reflexivity | now rewrite IH]. Qed.

(** On a [str], [clean_text] strips and then maps [clean_char]. *)
Lemma clean_text_str (s : string) :
  TextProcessorMixin.clean_text (AStr s)
  = Returns (map_chars clean_char (PyStr.strip s)).
Proof.
  unfold TextProcessorMixin.clean_text.
  now rewrite !replace_map_chars, map_chars_compose.
Qed.

Lemma clean_char_isspace (c : ascii) :
  PyStr.isspace (clean_char c) = PyStr.isspace c.
Proof. destruct c as [[] [] [] [] [] [] [] []]; reflexivity. Qed.

Lemma clean_char_idem (c : ascii) : clean_char (clean_char c) = clean_char c.
Proof. destruct c as [[] [] [] [] [] [] [] []]; reflexivity. Qed.

Lemma clean_char_not_space (c : ascii) :
  PyStr.isspace c = false -> clean_char c = c.
Proof. destruct c as [[] [] [] [] [] [] [] []]; intros H; try reflexivity;
         discriminate H. Qed.

Lemma clean_char_range (c : ascii) :
  clean_char c <> "010"%char /\ clean_char c <> "009"%char.
Proof. destruct c as [[] [] [] [] [] [] [] []]; split; discriminate. Qed.

Section StripMap.

Variable f : ascii -> ascii.
Hypothesis f_isspace : forall c, PyStr.isspace (f c) = PyStr.isspace c.

Lemma lstrip_map_chars (s : string) :
  PyStr.lstrip (map_chars f s) = map_chars f (PyStr.lstrip s).
Proof.
  induction s as [|c s IH]; simpl; [reflexivity |].
  rewrite f_isspace. destruct (PyStr.isspace c); [exact IH | reflexivity].
Qed.

Lemma rstrip_map_chars (s : string) :
  PyStr.rstrip (map_chars f s) = map_chars f (PyStr.rstrip s).
Proof.
  induction s as [|c s IH]; simpl; [reflexivity |].
  rewrite IH, f_isspace.
  destruct (PyStr.rstrip s); simpl; [| reflexivity].
  destruct (PyStr.isspace c); reflexivity.
Qed.

Lemma strip_map_chars (s : string) :
  PyStr.strip (map_chars f s) = map_chars f (PyStr.strip s).
Proof. unfold PyStr.strip. now rewrite lstrip_map_chars, rstrip_map_chars. Qed.

End StripMap.

Lemma rstrip_idem (s : string) : PyStr.rstrip (PyStr.rstrip s) = PyStr.rstrip s.
Proof.
  induction s as [|c s IH]; [reflexivity |].
  cbn [PyStr.rstrip]. destruct (PyStr.rstrip s) as [|d r] eqn:Hr.
  - destruct (PyStr.isspace c) eqn:Hc; [reflexivity |].
    cbn [PyStr.rstrip]. now rewrite Hc.
  - cbn [PyStr.rstrip] in *. now rewrite IH.
Qed.

Lemma lstrip_rstrip_lstrip (s : string) :
  PyStr.lstrip (PyStr.rstrip (PyStr.lstrip s)) = PyStr.rstrip (PyStr.lstrip s).
Proof.
  induction s as [|c s IH]; [reflexivity |].
  cbn [PyStr.lstrip]. destruct (PyStr.isspace c) eqn:Hc; [exact IH |].
  cbn [PyStr.rstrip]. destruct (PyStr.rstrip s); rewrite ?Hc;
    cbn [PyStr.lstrip]; now rewrite Hc.
Qed.

Lemma strip_idem (s : string) : PyStr.strip (PyStr.strip s) = PyStr.strip s.
Proof.
  unfold PyStr.strip. now rewrite lstrip_rstrip_lstrip, rstrip_idem.
Qed.

Lemma lstrip_length (s : string) :
  String.length (PyStr.lstrip s) <= String.length s.
Proof.
  induction s as [|c s IH]; simpl; [lia |].
  destruct (PyStr.isspace c); simpl; lia.
Qed.

Lemma rstrip_length (s : string) :
  String.length (PyStr.rstrip s) <= String.length s.
Proof.
  induction s as [|c s IH]; simpl; [lia |].
  destruct (PyStr.rstrip s); [destruct (PyStr.isspace c) |]; simpl in *; lia.
Qed.

Lemma strip_length (s : string) :
  String.length (PyStr.strip s) <= String.length s.
Proof.
  unfold PyStr.strip.
  pose proof (rstrip_length (PyStr.lstrip s)). pose proof (lstrip_length s).
  lia.
Qed.

(** [s.strip()] is empty exactly when [s] is all whitespace. *)
Lemma strip_blank_iff (s : string) : PyStr.strip s = "" <-> blank s = true.
Proof.
  unfold PyStr.strip, blank.
  induction s as [|c s IH]; [now split |].
  cbn [PyStr.lstrip list_ascii_of_string forallb].
  destruct (PyStr.isspace c) eqn:Hc; cbn [andb]; [exact IH |].
  cbn [PyStr.rstrip]. rewrite Hc.
  split; [| discriminate].
  destruct (PyStr.rstrip s); discriminate.
Qed.

Lemma spaceless_fixed (s : string) :
  spaceless s = true ->
  PyStr.strip s = s /\ map_chars clean_char s = s.
Proof.
  unfold spaceless, PyStr.strip.
  induction s as [|c s IH]; [now split |].
  cbn [list_ascii_of_string forallb]. intros H.
  apply andb_true_iff in H. destruct H as [Hc Hs].
  apply negb_true_iff in Hc. destruct (IH Hs) as [IH1 IH2]. split.
  - cbn [PyStr.lstrip]. rewrite Hc. cbn [PyStr.rstrip].
    assert (Hr : PyStr.rstrip s = s).
    { destruct s as [|d s]; [reflexivity |].
      cbn [list_ascii_of_string forallb] in Hs.
      apply andb_true_iff in Hs. destruct Hs as [Hd _].
      apply negb_true_iff in Hd.
      cbn [PyStr.lstrip] in IH1. now rewrite Hd in IH1. }
    rewrite Hr. destruct s; [now rewrite Hc | reflexivity].
  - cbn [map_chars]. now rewrite IH2, clean_char_not_space.
Qed.

Lemma string_of_uint_spaceless (d : Decimal.uint) :
  spaceless (NilEmpty.string_of_uint d) = true.
Proof. induction d; simpl; auto. Qed.

Lemma str_of_int_spaceless (z : Z) : spaceless (PyStr.str_of_int z) = true.
Proof.
  unfold PyStr.str_of_int, NilZero.string_of_int.
  destruct (Z.to_int z) as [d | d]; unfold NilZero.string_of_uint.
  - destruct d; try reflexivity; apply string_of_uint_spaceless.
  - unfold spaceless. cbn [list_ascii_of_string forallb].
    destruct d; try reflexivity; apply string_of_uint_spaceless.
Qed.

(** A text in the form [clean_text] leaves behind: nothing to strip, no
    newline and no tab. *)
Lemma spaceless_clean (r : string) :
  spaceless r = true ->
  TextProcessorMixin.clean_text (AStr r) = Returns r.
Proof.
  intros H. rewrite clean_text_str.
  destruct (spaceless_fixed r H) as [H1 H2]. now rewrite H1, H2.
Qed.

Lemma map_chars_app (f : ascii -> ascii) (a b : string) :
  map_chars f (a ++ b) = map_chars f a ++ map_chars f b.
Proof. induction a as [|c a IH]; simpl; [reflexivity | now rewrite IH]. Qed.

Lemma rstrip_ends_nonspace (a : string) (c : ascii) :
  PyStr.isspace c = false ->
  PyStr.rstrip (a ++ String c "") = a ++ String c "".
Proof.
  intros Hc. induction a as [|d a IH].
  - simpl. now rewrite Hc.
  - cbn [append PyStr.rstrip]. rewrite IH.
    destruct a; reflexivity.
Qed.

(** The text of one byte in [repr(b)] holds no newline and no tab, the
    quote being none. *)
Lemma bytes_repr_body_clean (quote : ascii) (b : string) :
  clean_char quote = quote ->
  map_chars clean_char (PyStr.bytes_repr_body quote b)
  = PyStr.bytes_repr_body quote b.
Proof.
  intros Hq. induction b as [|c b IH]; [reflexivity |].
  cbn [PyStr.bytes_repr_body]. rewrite map_chars_app, IH. f_equal.
  destruct (Ascii.eqb c quote) eqn:Hc.
  - apply Ascii.eqb_eq in Hc. subst c. cbn [orb map_chars].
    now rewrite Hq.
  - clear Hc IH. cbn [orb].
    destruct c as [[] [] [] [] [] [] [] []]; reflexivity.
Qed.

(** [str(b)] for [bytes] is left as it is by [clean_text]. *)
Lemma bytes_repr_clean (b : string) :
  TextProcessorMixin.clean_text (AStr (PyStr.bytes_repr b))
  = Returns (PyStr.bytes_repr b).
Proof.
  rewrite clean_text_str. unfold PyStr.bytes_repr.
  set (quote := (if PyStr.has_byte "'" b && negb (PyStr.has_byte "034" b)
                 then "034" else "'")%char).
  assert (Hq : clean_char quote = quote /\ PyStr.isspace quote = false)
    by (unfold quote; destruct (_ && _); split; reflexivity).
  destruct Hq as [Hq Hsp].
  unfold PyStr.strip. cbn [PyStr.lstrip].
  change (PyStr.isspace "b") with false. cbv iota.
  change (String "b" (String quote
            (PyStr.bytes_repr_body quote b ++ String quote "")))
    with ((String "b" (String quote (PyStr.bytes_repr_body quote b)))
          ++ String quote "").
  rewrite (rstrip_ends_nonspace _ _ Hsp).
  rewrite map_chars_app. cbn [map_chars append].
  now rewrite Hq, (bytes_repr_body_clean quote b Hq).
Qed.

(** Cleaning what [clean_text] made of a [str], [None], a [bool], an [int]
    or [bytes] changes nothing. *)
Lemma clean_text_fixed (x : PyArg) (cleaned : string) :
  (forall o, x <> AObj o) ->
  TextProcessorMixin.clean_text x = Returns cleaned ->
  TextProcessorMixin.clean_text (AStr cleaned) = Returns cleaned.
Proof.
  intros Hx. destruct x as [| [] | z | s | b | o].
  - intros H; injection H as <-. reflexivity.
  - intros H; injection H as <-. reflexivity.
  - intros H; injection H as <-. reflexivity.
  - cbn [TextProcessorMixin.clean_text py_str].
    destruct (Nat.ltb 4300 (PyStr.digits z)); intros H;
      [discriminate H | injection H as <-].
    apply spaceless_clean, str_of_int_spaceless.
  - rewrite clean_text_str. intros H; injection H as <-.
    rewrite clean_text_str.
    rewrite (strip_map_chars _ clean_char_isspace), strip_idem.
    rewrite map_chars_compose. f_equal.
    induction (PyStr.strip s) as [|c r IH]; simpl; [reflexivity |].
    now rewrite clean_char_idem, IH.
  - intros H; injection H as <-. apply bytes_repr_clean.
  - now elim (Hx o).
Qed.

(** X1: cleaning a text that was already cleaned changes nothing, when the
    first cleaning was given a [str], [None], a [bool], an [int] or
    [bytes].  (Of an object of another class [clean_text] returns
    [str(text)] as it is, which may hold anything.) *)
Theorem clean_text_idempotent (x : PyArg) (cleaned : string) :
  (forall o, x <> AObj o) ->
  TextProcessorMixin.clean_text x = Returns cleaned ->
  TextProcessorMixin.clean_text (AStr cleaned) = Returns cleaned.
Proof. apply clean_text_fixed. Qed.

Lemma clean_text_idempotent_witness :
  TextProcessorMixin.clean_text
    (AStr (String "009" " two" ++ String "010" "lines  "))
  = Returns "two lines" /\
  TextProcessorMixin.clean_text (AStr "two lines") = Returns "two lines".
Proof.
  split; [reflexivity |].
  apply (clean_text_idempotent
           (AStr (String "009" " two" ++ String "010" "lines  "))
           "two lines").
  - intros o H. discriminate H.
  - reflexivity.
Defined.

Lemma map_chars_in (f : ascii -> ascii) (s : string) (c : ascii) :
  In c (list_ascii_of_string (map_chars f s)) ->
  exists d, c = f d.
Proof.
  induction s as [|a s IH]; simpl; [contradiction |].
  intros [<- | H]; [now exists a | now apply IH].
Qed.

(** X2: what [clean_text] makes of a [str], [None], a [bool], an [int] or
    [bytes] holds no newline and no tab, and has no whitespace left at
    either end. *)
Theorem clean_text_normal_form (x : PyArg) (cleaned : string) :
  (forall o, x <> AObj o) ->
  TextProcessorMixin.clean_text x = Returns cleaned ->
  (forall c, In c (list_ascii_of_string cleaned) ->
             c <> "010"%char /\ c <> "009"%char) /\
  PyStr.strip cleaned = cleaned.
Proof.
  intros Hx Hc. pose proof (clean_text_fixed x cleaned Hx Hc) as Hfix.
  rewrite clean_text_str in Hfix. injection Hfix as Hfix.
  assert (Hstrip : PyStr.strip cleaned = cleaned).
  { rewrite <- Hfix at 1.
    rewrite (strip_map_chars _ clean_char_isspace), strip_idem.
    exact Hfix. }
  split; [| exact Hstrip].
  intros c Hin. rewrite <- Hfix in Hin.
  destruct (map_chars_in _ _ _ Hin) as [d ->]. apply clean_char_range.
Qed.

Lemma clean_text_normal_form_witness :
  PyStr.strip "b'a\tb '" = "b'a\tb '" /\
  TextProcessorMixin.clean_text (ABytes (String "a" (String "009" "b ")))
  = Returns "b'a\tb '".
Proof.
  split; [| reflexivity].
  apply (clean_text_normal_form (ABytes (String "a" (String "009" "b ")))
           "b'a\tb '").
  - intros o H. discriminate H.
  - reflexivity.
Defined.

Lemma clean_text_length (s : string) :
  exists cleaned,
    TextProcessorMixin.clean_text (AStr s) = Returns cleaned /\
    String.length cleaned <= String.length s.
Proof.
  eexists. split; [apply clean_text_str |].
  rewrite map_chars_length. apply strip_length.
Qed.

Lemma str_truthy (s : string) : s <> "" -> truthy (AStr s) = true.
Proof. intros H. simpl. destruct s; [contradiction | reflexivity]. Qed.

(** X3: cleaning never lengthens a text, so on a loaded text instance a
    non-empty string of at most 1000 characters is never answered with
    the "Text too long" error. *)
Theorem short_text_passes_length_guard (env : Env) (m : Model)
        (t : list Event) (s : string) :
  cls m = TextCls ->
  _is_loaded m = true ->
  s <> "" ->
  String.length s <= 1000 ->
  (exists cleaned,
      TextProcessorMixin.clean_text (AStr s) = Returns cleaned /\
      String.length cleaned <= String.length s) /\
  fst (run (process_input env (AStr s)) m t) <>
  Returns (VDict [("error", VStr "Text too long (max 1000 characters)")]).
Proof.
  intros Hc Hl Hs Hlen. pose proof (clean_text_length s) as Hcl.
  split; [exact Hcl |]. destruct Hcl as (cleaned & Hclean & Hcl).
  rewrite (process_input_truthy env _ m t (str_truthy s Hs)), Hl.
  rewrite (process_body_text env _ m t Hc), text_body_eval, Hclean.
  rewrite (proj2 (Nat.leb_le _ _)) by lia.
  destruct (is_mock _ _); [discriminate |].
  destruct (run (call_pipeline _ _) m t) as [[r | e] s']; discriminate.
Qed.

Lemma short_text_passes_length_guard_witness :
  fst (run (process_input env_offline (AStr (PyStr.mul "ab" 500)))
         loaded_text [])
  <> Returns (VDict [("error", VStr "Text too long (max 1000 characters)")]).
Proof.
  assert (Hne : PyStr.mul "ab" 500 <> "") by (intros H; discriminate H).
  assert (Hlen : String.length (PyStr.mul "ab" 500) <= 1000)
    by (apply Nat.leb_le; vm_compute; reflexivity).
  apply (proj2 (short_text_passes_length_guard env_offline loaded_text []
                  (PyStr.mul "ab" 500) eq_refl eq_refl Hne Hlen)).
Defined.

(** X4: a text made of whitespace only is not rejected as empty: it is
    truthy, its cleaned form is the empty string, and the mock responder of
    a loaded text instance answers ["NEGATIVE"] for the input [""]. *)
Theorem blank_text_is_processed (env : Env) (m : Model) (t : list Event)
        (s : string) :
  cls m = TextCls ->
  _is_loaded m = true ->
  _pipeline m = PipeStr "mock_sentiment_pipeline" ->
  s <> "" ->
  blank s = true ->
  run (process_input env (AStr s)) m t =
  (Returns (VDict [("input", VStr "");
                   ("results", VList [prediction "NEGATIVE" 0.95]);
                   ("model_used", VStr (_model_name m))]),
   mkSt m (t ++ [EvTiming "process_input"])).
Proof.
  intros Hc Hl Hp Hs Hb.
  rewrite (process_input_truthy env _ m t (str_truthy s Hs)), Hl.
  rewrite (process_body_text env _ m t Hc), text_body_eval.
  rewrite clean_text_str, (proj2 (strip_blank_iff s) Hb), Hp. reflexivity.
Qed.

Lemma blank_text_is_processed_witness :
  run (process_input env_offline (AStr (String "009" "  "))) loaded_text [] =
  (Returns (VDict [("input", VStr "");
                   ("results", VList [prediction "NEGATIVE" 0.95]);
                   ("model_used", VStr (_model_name loaded_text))]),
   mkSt loaded_text [EvTiming "process_input"]).
Proof.
  apply (blank_text_is_processed env_offline loaded_text []
           (String "009" "  ") eq_refl eq_refl eq_refl).
  - intros H. discriminate H.
  - reflexivity.
Defined.

(* ===================================================================== *)
(** ** More on the model classes *)
(* ===================================================================== *)

(** X5: the setter of [model_name] stores a string that is not all
    whitespace as it is, unstripped, and the getter reads it back; any
    other value, a non-string or a blank string, raises [ValueError] and
    leaves the instance as it was. *)
Theorem model_name_setter_validates (value : PyArg) (m : Model)
        (t : list Event) :
  (forall s, value = AStr s -> blank s = false ->
     run (AIModelBase.model_name_setter value) m t
     = (Returns tt, mkSt (with_name m s) t) /\
     run AIModelBase.model_name (with_name m s) t
     = (Returns s, mkSt (with_name m s) t)) /\
  (is_str value = false \/ (exists s, value = AStr s /\ blank s = true) ->
   run (AIModelBase.model_name_setter value) m t
   = (Raises (mkExc ValueError "Model name must be a non-empty string"),
      mkSt m t)).
Proof.
  split.
  - intros s -> Hb. split; [| reflexivity].
    unfold run, AIModelBase.model_name_setter.
    destruct (PyStr.strip s) eqn:Hs.
    + apply strip_blank_iff in Hs. congruence.
    + reflexivity.
  - intros [Hn | (s & -> & Hb)].
    + destruct value; try reflexivity. discriminate Hn.
    + unfold run, AIModelBase.model_name_setter.
      now rewrite (proj2 (strip_blank_iff s) Hb).
Qed.

Lemma model_name_setter_validates_witness :
  run (AIModelBase.model_name_setter (AStr " my model ")) loaded_text []
  = (Returns tt, mkSt (with_name loaded_text " my model ") []) /\
  run (AIModelBase.model_name_setter (AStr "   ")) loaded_text []
  = (Raises (mkExc ValueError "Model name must be a non-empty string"),
     mkSt loaded_text []).
Proof.
  split.
  - apply (proj1 (model_name_setter_validates (AStr " my model ")
                    loaded_text []) " my model " eq_refl eq_refl).
  - apply (proj2 (model_name_setter_validates (AStr "   ") loaded_text [])).
    right. exists "   ". split; reflexivity.
Defined.



(** [get_image_info] never raises and calls [Image.open] once: it
    returns the format, mode and size of the image that call yields, or
    [{"error": str(e)}] when the call raises [e]. *)
Lemma get_image_info_total (env : Env) (x : PyArg) (m : Model)
      (t : list Event) :
  run (ImageProcessorMixin.get_image_info env x) m t =
  (Returns match pil_open env t x with
           | Returns img => ImageProcessorMixin.image_info_of img
           | Raises e => VDict [("error", VStr (exc_str e))]
           end,
   mkSt m (t ++ [EvOpen x])).
Proof.
  unfold run, ImageProcessorMixin.get_image_info, try_except, bind,
    Image_open.
  cbn [self trace]. destruct (pil_open env t x); reflexivity.
Qed.

(** X7: [process_input] opens the image a second time for its metadata;
    when that second [Image.open] raises although the first succeeded, the
    call of a loaded image instance with the mock marker still returns
    its classification, and the failure is kept under ["image_info"] as
    [{"error": str(e)}], not reported as "Processing failed". *)
Theorem vanished_file_still_classified (env : Env) (m : Model)
        (t : list Event) (s : string) (image : PILImage) (e : PyExc) :
  cls m = ImageCls ->
  _is_loaded m = true ->
  _pipeline m = PipeStr "mock_image_pipeline" ->
  s <> "" ->
  PyStr.any_endswith (PyStr.lower s) ImageProcessorMixin.valid_formats = true ->
  pil_open env t (AStr s) = Returns image ->
  pil_open env (t ++ [EvOpen (AStr s)]) (AStr s) = Raises e ->
  fst (run (process_input env (AStr s)) m t) =
  Returns
    (VDict [("image_info", VDict [("error", VStr (exc_str e))]);
            ("results",
             ImageClassificationModel.mock_results
               (PyStr.lower (PyStr.basename s)));
            ("model_used", VStr (_model_name m))]).
Proof.
  intros Hc Hl Hp Hs Hfmt Hopen Hagain.
  rewrite (process_input_truthy env _ m t (str_truthy s Hs)), Hl.
  rewrite (process_body_image env _ m t Hc), image_body_eval. cbv zeta.
  rewrite Hfmt, Hopen, Hagain, Hp. cbn [is_mock].
  rewrite String.eqb_refl, top5_mock_results. reflexivity.
Qed.

Lemma vanished_file_still_classified_witness :
  fst (run (process_input env_vanishing (AStr "dog.gif")) loaded_image []) =
  Returns
    (VDict [("image_info",
             VDict [("error",
                     VStr "[Errno 2] No such file or directory: 'dog.gif'")]);
            ("results", ImageClassificationModel.dog_guess);
            ("model_used", VStr (_model_name loaded_image))]).
Proof.
  assert (Hne : "dog.gif" <> "") by (intros H; discriminate H).
  apply (vanished_file_still_classified env_vanishing loaded_image []
           "dog.gif" (mkImage (Some "GIF") "P" (32, 32)%Z) _
           eq_refl eq_refl eq_refl Hne eq_refl eq_refl eq_refl).
Defined.

(** X8: with a real pipeline on a loaded image instance and a path that
    passes the format check and opens, a ranked list coming back from the
    pipeline is cut to its first five entries, in the same order; when
    the pipeline raises, the error [dict] carries its message. *)
Theorem image_pipeline_top5 (env : Env) (m : Model) (t : list Event)
        (s : string) (image : PILImage)
        (f : PipeArg -> Outcome PyVal) :
  cls m = ImageCls ->
  _is_loaded m = true ->
  _pipeline m = PipeCallable f ->
  s <> "" ->
  PyStr.any_endswith (PyStr.lower s) ImageProcessorMixin.valid_formats = true ->
  pil_open env t (AStr s) = Returns image ->
  (forall l, f (ArgImage image) = Returns (VList l) ->
     exists info,
       fst (run (process_input env (AStr s)) m t) =
       Returns (VDict [("image_info", info);
                       ("results", VList (firstn 5 l));
                       ("model_used", VStr (_model_name m))]) /\
       List.length (firstn 5 l) <= 5) /\
  (forall e, f (ArgImage image) = Raises e ->
     fst (run (process_input env (AStr s)) m t) =
     Returns (VDict [("error", VStr ("Processing failed: " ++ exc_str e))])).
Proof.
  intros Hc Hl Hp Hs Hfmt Hopen.
  rewrite (process_input_truthy env _ m t (str_truthy s Hs)), Hl.
  rewrite (process_body_image env _ m t Hc), image_body_eval. cbv zeta.
  rewrite Hfmt, Hopen, Hp. cbn [is_mock call_pipeline].
  unfold run, bind, emit, lift. cbn [self trace]. split.
  - intros l Hf. rewrite Hf. eexists. split; [reflexivity |].
    apply firstn_le_length.
  - intros e Hf. rewrite Hf. reflexivity.
Qed.

Lemma image_pipeline_top5_witness :
  exists info,
    fst (run (process_input env_images (AStr "x.png")) ranked_image []) =
    Returns (VDict [("image_info", info);
                    ("results",
                     VList (map (fun l => prediction l 0.1)
                              ["a"; "b"; "c"; "d"; "e"]));
                    ("model_used", VStr (_model_name ranked_image))]).
Proof.
  assert (Hne : "x.png" <> "") by (intros H; discriminate H).
  destruct (proj1 (image_pipeline_top5 env_images ranked_image [] "x.png"
                     (mkImage (Some "PNG") "RGB" (640, 480)%Z) _
                     eq_refl eq_refl eq_refl Hne eq_refl eq_refl)
                  _ eq_refl) as (info & Hrun & _).
  exists info. exact Hrun.
Defined.

(** X9: with a real pipeline on a loaded text instance and a truthy
    argument that [clean_text] turns into a cleaned text of at most 1000
    characters, the pipeline is called on the cleaned text, not on the raw
    argument: its value is returned whole under ["results"], and its
    exception comes back as the error [dict]. *)
Theorem text_pipeline_gets_cleaned_text (env : Env) (m : Model)
        (t : list Event) (x : PyArg) (cleaned : string)
        (f : PipeArg -> Outcome PyVal) :
  cls m = TextCls ->
  _is_loaded m = true ->
  _pipeline m = PipeCallable f ->
  truthy x = true ->
  TextProcessorMixin.clean_text x = Returns cleaned ->
  String.length cleaned <= 1000 ->
  fst (run (process_input env x) m t) =
  match f (ArgText cleaned) with
  | Returns results =>
      Returns (VDict [("input", VStr cleaned);
                      ("results", results);
                      ("model_used", VStr (_model_name m))])
  | Raises e =>
      Returns (VDict [("error", VStr ("Processing failed: " ++ exc_str e))])
  end.
Proof.
  intros Hc Hl Hp Ht Hclean Hlen.
  rewrite (process_input_truthy env x m t Ht), Hl.
  rewrite (process_body_text env x m t Hc), text_body_eval, Hclean.
  rewrite (proj2 (Nat.leb_le _ _) Hlen), Hp. cbn [is_mock call_pipeline].
  unfold run, bind, emit, lift. cbn [self trace].
  destruct (f _); reflexivity.
Qed.

Lemma text_pipeline_gets_cleaned_text_witness :
  fst (run (process_input env_offline (AStr " a fine day ")) failing_text [])
  = Returns (VDict [("error",
                     VStr "Processing failed: CUDA out of memory")]).
Proof.
  assert (Hlen : String.length "a fine day" <= 1000)
    by (apply Nat.leb_le; reflexivity).
  apply (text_pipeline_gets_cleaned_text env_offline failing_text []
           (AStr " a fine day ") "a fine day" _
           eq_refl eq_refl eq_refl eq_refl eq_refl Hlen).
Defined.

(** X10: on a loaded image instance, whatever its pipeline, a path that
    passes the format check but that [Image.open] cannot open gives the
    error [dict] with the message of that failure, after a single attempt
    to open the file. *)
Theorem image_open_failure_reported (env : Env) (m : Model) (t : list Event)
        (s : string) (e : PyExc) :
  cls m = ImageCls ->
  _is_loaded m = true ->
  s <> "" ->
  PyStr.any_endswith (PyStr.lower s) ImageProcessorMixin.valid_formats = true ->
  pil_open env t (AStr s) = Raises e ->
  run (process_input env (AStr s)) m t =
  (Returns (VDict [("error", VStr ("Processing failed: " ++ exc_str e))]),
   mkSt m (t ++ [EvOpen (AStr s); EvTiming "process_input"])).
Proof.
  intros Hc Hl Hs Hfmt Hopen.
  rewrite (process_input_truthy env _ m t (str_truthy s Hs)), Hl.
  rewrite (process_body_image env _ m t Hc), image_body_eval. cbv zeta.
  rewrite Hfmt, Hopen. cbn [self trace]. now rewrite <- app_assoc.
Qed.

Lemma image_open_failure_reported_witness :
  run (process_input env_offline (AStr "cat.JPG")) ranked_image [] =
  (Returns (VDict [("error",
                    VStr ("Processing failed: [Errno 2] No such file or "
                          ++ "directory: 'cat.JPG'"))]),
   mkSt ranked_image [EvOpen (AStr "cat.JPG"); EvTiming "process_input"]).
Proof.
  assert (Hne : "cat.JPG" <> "") by (intros H; discriminate H).
  apply (image_open_failure_reported env_offline ranked_image [] "cat.JPG"
           _ eq_refl eq_refl Hne eq_refl eq_refl).
Defined.

(** Calling the content of [_pipeline] runs one inference when it is a
    real pipeline and nothing otherwise. *)
Lemma call_pipeline_trace (p : Pipeline) (arg : PipeArg) (m : Model)
      (t : list Event) :
  exists calls,
    snd (run (call_pipeline p arg) m t) = mkSt m (t ++ calls) /\
    (calls = [] \/ calls = [EvInfer arg]) /\
    ((forall f, p <> PipeCallable f) -> calls = []).
Proof.
  destruct p as [| q | f].
  - exists []. cbn. rewrite app_nil_r. auto.
  - exists []. cbn. rewrite app_nil_r. auto.
  - exists [EvInfer arg]. unfold run, call_pipeline, bind, emit, lift.
    cbn [self trace]. destruct (f arg); cbn [snd].
    + repeat split; auto. intros H. now elim (H f).
    + repeat split; auto. intros H. now elim (H f).
Qed.

(** X11: a call of [process_input] with a truthy argument touches the
    outside world only by opening the given path, at most twice, then by
    running the pipeline, at most once and only when [_pipeline] holds a
    real one, and by printing its timing line last; a text instance opens
    nothing, and an instance that is not loaded opens and runs nothing. *)
Theorem process_input_trace (env : Env) (m : Model) (t : list Event)
        (x : PyArg) :
  truthy x = true ->
  exists k calls,
    k <= 2 /\
    (calls = [] \/ exists arg, calls = [EvInfer arg]) /\
    trace (snd (run (process_input env x) m t))
    = (t ++ repeat (EvOpen x) k ++ calls
         ++ [EvTiming "process_input"])%list /\
    (cls m = TextCls -> k = 0) /\
    (_is_loaded m = false -> k = 0 /\ calls = []) /\
    ((forall f, _pipeline m <> PipeCallable f) -> calls = []).
Proof.
  intros Ht. rewrite (process_input_truthy env x m t Ht).
  assert (Hnone : exists k calls,
            k <= 2 /\
            (calls = [] \/ exists arg, calls = [EvInfer arg]) /\
            (t ++ [EvTiming "process_input"])%list
            = (t ++ repeat (EvOpen x) k ++ calls
                 ++ [EvTiming "process_input"])%list /\
            k = 0 /\ calls = []).
  { exists 0, []. repeat split; auto. }
  destruct (_is_loaded m) eqn:Hl.
  2:{ destruct Hnone as (k & calls & Hk & Hcalls & Htr & Hk0 & Hc0).
      exists k, calls. repeat split; auto. }
  destruct (cls m) eqn:Hc.
  - rewrite (process_body_text env x m t Hc), text_body_eval.
    destruct (TextProcessorMixin.clean_text x) as [cleaned | e].
    2:{ destruct Hnone as (k & calls & Hk & Hcalls & Htr & Hk0 & Hc0).
        exists k, calls. repeat split; auto; intros; discriminate. }
    destruct (Nat.leb _ _).
    2:{ destruct Hnone as (k & calls & Hk & Hcalls & Htr & Hk0 & Hc0).
        exists k, calls. repeat split; auto; intros; discriminate. }
    destruct (is_mock _ _).
    { destruct Hnone as (k & calls & Hk & Hcalls & Htr & Hk0 & Hc0).
      exists k, calls. repeat split; auto; intros; discriminate. }
    destruct (call_pipeline_trace (_pipeline m) (ArgText cleaned) m t)
      as (calls & Hs & Hcalls & Hreal).
    exists 0, calls. split; [lia |].
    split; [destruct Hcalls as [-> | ->]; eauto |].
    split; [| repeat split; auto; intros; discriminate].
    destruct (run (call_pipeline _ _) m t) as [[r | e] s'];
      cbn [snd] in Hs; subst s'; cbn [snd self trace repeat app];
      now rewrite <- app_assoc.
  - rewrite (process_body_image env x m t Hc).
    destruct x as [| b | z | s | b | o];
      try (destruct Hnone as (k & calls & Hk & Hcalls & Htr & Hk0 & Hc0);
           exists k, calls; repeat split; auto; intros; discriminate).
    rewrite image_body_eval. cbv zeta.
    destruct (PyStr.any_endswith _ _).
    2:{ destruct Hnone as (k & calls & Hk & Hcalls & Htr & Hk0 & Hc0).
        exists k, calls. repeat split; auto; intros; discriminate. }
    destruct (pil_open env t (AStr s)).
    2:{ exists 1, []. split; [lia |]. split; [auto |].
        split; [| repeat split; auto; intros; discriminate].
        cbn [snd self trace repeat app]. now rewrite <- app_assoc. }
    destruct (is_mock _ _).
    { exists 2, []. split; [lia |]. split; [auto |].
      split; [| repeat split; auto; intros; discriminate].
      cbn [snd self trace repeat app]. now rewrite <- !app_assoc. }
    match goal with
    | |- context [run (call_pipeline _ ?arg) m ?t2] =>
        destruct (call_pipeline_trace (_pipeline m) arg m t2)
          as (calls & Hs & Hcalls & Hreal)
    end.
    exists 2, calls. split; [lia |].
    split; [destruct Hcalls as [-> | ->]; eauto |].
    split; [| repeat split; auto; intros; discriminate].
    destruct (run (call_pipeline _ _) m _) as [[r | e] s'];
      cbn [snd] in Hs; subst s'; cbn [snd self trace repeat app];
      now rewrite <- !app_assoc.
Qed.

Lemma process_input_trace_witness :
  trace (snd (run (process_input env_images (AStr "dog.png"))
                ranked_image []))
  = [EvOpen (AStr "dog.png"); EvOpen (AStr "dog.png");
     EvInfer (ArgImage (mkImage (Some "PNG") "RGB" (640, 480)%Z));
     EvTiming "process_input"] /\
  exists k calls,
    k <= 2 /\
    trace (snd (run (process_input env_images (AStr "dog.png"))
                  ranked_image []))
    = (repeat (EvOpen (AStr "dog.png")) k ++ calls
         ++ [EvTiming "process_input"])%list.
Proof.
  split; [reflexivity |].
  destruct (process_input_trace env_images ranked_image []
              (AStr "dog.png") eq_refl) as (k & calls & Hk & _ & Htr & _).
  exists k, calls. split; [exact Hk | exact Htr].
Defined.

(* ===================================================================== *)
(** ** Loading and describing *)
(* ===================================================================== *)

Lemma non_ascii_run_ascii (s : string) :
  all_ascii s = true -> forall i, PyStr.non_ascii_run i s = None.
Proof.
  unfold all_ascii. induction s as [|c s IH]; [reflexivity |].
  cbn [list_ascii_of_string forallb PyStr.non_ascii_run]. intros H i.
  apply andb_true_iff in H. destruct H as [Hc Hs].
  rewrite Hc. now apply IH.
Qed.

Lemma all_ascii_app (a b : string) :
  all_ascii (a ++ b) = all_ascii a && all_ascii b.
Proof.
  unfold all_ascii. induction a as [|c a IH]; [reflexivity |].
  cbn [append list_ascii_of_string forallb]. now rewrite IH, andb_assoc.
Qed.

Lemma all_ascii_cons (c : ascii) (s : string) :
  all_ascii (String c s) = PyStr.is_ascii c && all_ascii s.
Proof. reflexivity. Qed.

Lemma string_of_uint_ascii (d : Decimal.uint) :
  all_ascii (NilEmpty.string_of_uint d) = true.
Proof. induction d; simpl; auto. Qed.

Lemma str_of_int_ascii (z : Z) : all_ascii (PyStr.str_of_int z) = true.
Proof.
  unfold PyStr.str_of_int, NilZero.string_of_int.
  destruct (Z.to_int z) as [d | d]; unfold NilZero.string_of_uint.
  - destruct d; try reflexivity; apply string_of_uint_ascii.
  - unfold all_ascii. cbn [list_ascii_of_string forallb].
    destruct d; try reflexivity; apply string_of_uint_ascii.
Qed.

Lemma hex_escape_ascii (c : ascii) : all_ascii (PyStr.hex_escape c) = true.
Proof. destruct c as [[] [] [] [] [] [] [] []]; reflexivity. Qed.

(** The message of the ASCII codec is itself ASCII. *)
Lemma ascii_encode_error_ascii (line : string) (e : PyExc) :
  ascii_encode_error line = Some e -> all_ascii (exc_str e) = true.
Proof.
  unfold ascii_encode_error.
  destruct (PyStr.non_ascii_run 0 line) as [[[i c] j] |];
    [| intros H; discriminate H].
  match goal with
  | |- Some (mkExc _ ?msg) = _ -> _ =>
      assert (Hm : all_ascii msg = true);
      [| generalize dependent msg; intros text Hm H; injection H as <-;
         exact Hm]
  end.
  destruct (Nat.eqb i j); rewrite !all_ascii_app;
    rewrite ?hex_escape_ascii, ?str_of_int_ascii; reflexivity.
Qed.

(** So the line of the handler of [load_model] can always be printed. *)
Lemma error_line_prints (enc : Encoding) (line : string) (e : PyExc) :
  encode_error enc line = Some e ->
  encode_error enc ("Error loading model: " ++ exc_str e) = None.
Proof.
  destruct enc; [intros H; discriminate H |].
  cbn [encode_error]. intros H. unfold ascii_encode_error.
  rewrite non_ascii_run_ascii; [reflexivity |].
  rewrite all_ascii_app, (ascii_encode_error_ascii line e H). reflexivity.
Qed.

(** What [load_model] does, in full. *)
Lemma load_model_eval (env : Env) (m : Model) (t : list Event) :
  let task := pipeline_task (cls m) in
  let p := installed env m t in
  run (load_model env tt) m t =
  match encode_error (stdout_encoding env)
          ("Successfully loaded " ++ _model_name m) with
  | None =>
      (Returns tt,
       mkSt (with_load m p)
            (t ++ [EvSleep 1;
                   EvPipeline task (_model_name m);
                   EvPrint ("Successfully loaded " ++ _model_name m);
                   EvTiming "load_model"]))
  | Some e =>
      (Returns tt,
       mkSt (with_failed_load m p)
            (t ++ [EvSleep 1;
                   EvPipeline task (_model_name m);
                   EvPrint ("Error loading model: " ++ exc_str e);
                   EvTiming "load_model"]))
  end.
Proof.
  cbv zeta. unfold run, load_model, installed. cbn [self].
  destruct (encode_error _ ("Successfully loaded " ++ _model_name m))
    as [e |] eqn:He.
  - pose proof (error_line_prints _ _ _ He) as Hline.
    destruct (cls m);
      [unfold TextClassificationModel.load_model
      |unfold ImageClassificationModel.load_model];
      unfold performance_monitor, bind, try_except, pipeline, get_attr, emit,
        set_pipeline, set_is_loaded, ret, py_print;
      cbn [self trace pipeline_task mock_marker];
      destruct (hf_pipeline env _ _ _); cbn [self trace _model_name];
      rewrite He; unfold raise; cbn [exc_str] in Hline |- *;
      rewrite Hline; unfold emit; cbn [self trace];
      unfold with_failed_load;
      cbn [cls _model_name _category _model _pipeline];
      rewrite <- !app_assoc; reflexivity.
  - destruct (cls m);
      [unfold TextClassificationModel.load_model
      |unfold ImageClassificationModel.load_model];
      unfold performance_monitor, bind, try_except, pipeline, get_attr, emit,
        set_pipeline, set_is_loaded, ret, py_print;
      cbn [self trace pipeline_task mock_marker];
      destruct (hf_pipeline env _ _ _); cbn [self trace _model_name];
      rewrite He; unfold emit; cbn [self trace];
      unfold with_load; cbn [cls _model_name _category _model _pipeline];
      rewrite <- !app_assoc; reflexivity.
Qed.

Lemma prints_cases (env : Env) (line : string) :
  (prints env line = true /\
   encode_error (stdout_encoding env) line = None)
  \/ (prints env line = false /\
      exists e, encode_error (stdout_encoding env) line = Some e).
Proof.
  unfold prints. destruct (encode_error _ line) as [e |]; eauto.
Qed.

(** X12: [load_model] never raises.  It sleeps, asks for the pipeline of
    the task of its class under the model's name, and installs that
    pipeline when the request succeeds and the mock marker of its class
    when it raises; class, name and category stay as they were.  When the
    terminal can encode the success line, the loaded flag is set and that
    line and the timing are printed.  When it cannot, as for a name with
    an accent on an ASCII terminal, [print] raises after the flag was
    set: the handler prints the error line and unsets the flag, so the
    instance ends up not loaded although its pipeline is installed. *)
Theorem load_model_effect (env : Env) (m : Model) (t : list Event) :
  let task := pipeline_task (cls m) in
  let p := installed env m t in
  let line := "Successfully loaded " ++ _model_name m in
  (prints env line = true ->
   run (load_model env tt) m t =
   (Returns tt,
    mkSt (with_load m p)
         (t ++ [EvSleep 1;
                EvPipeline task (_model_name m);
                EvPrint line;
                EvTiming "load_model"]))) /\
  (prints env line = false ->
   exists e,
     encode_error (stdout_encoding env) line = Some e /\
     run (load_model env tt) m t =
     (Returns tt,
      mkSt (with_failed_load m p)
           (t ++ [EvSleep 1;
                  EvPipeline task (_model_name m);
                  EvPrint ("Error loading model: " ++ exc_str e);
                  EvTiming "load_model"]))).
Proof.
  cbv zeta. rewrite load_model_eval. cbv zeta.
  destruct (prints_cases env ("Successfully loaded " ++ _model_name m))
    as [[Hp He] | [Hp [e He]]]; rewrite Hp, He; split; intros H;
    try discriminate H; eauto.
Qed.

Lemma load_model_effect_witness :
  run (load_model env_offline tt) TextClassificationModel.__init__ [] =
  (Returns tt,
   mkSt loaded_text
        [EvSleep 1;
         EvPipeline "sentiment-analysis"
           "distilbert-base-uncased-finetuned-sst-2-english";
         EvPrint ("Successfully loaded "
                  ++ "distilbert-base-uncased-finetuned-sst-2-english");
         EvTiming "load_model"]) /\
  exists e,
    run (load_model env_ascii tt) cafe_text [] =
    (Returns tt,
     mkSt (with_failed_load cafe_text (PipeStr "mock_sentiment_pipeline"))
          [EvSleep 1;
           EvPipeline "sentiment-analysis" (_model_name cafe_text);
           EvPrint ("Error loading model: " ++ exc_str e);
           EvTiming "load_model"]) /\
    exc_str e = "'ascii' codec can't encode character '\xe9' in position "
                ++ "23: ordinal not in range(128)".
Proof.
  split.
  - apply (proj1 (load_model_effect env_offline
                    TextClassificationModel.__init__ [])). reflexivity.
  - destruct (proj2 (load_model_effect env_ascii cafe_text []) eq_refl)
      as (e & He & Hrun).
    exists e. split; [exact Hrun |].
    injection He as <-. reflexivity.
Defined.

(** A loaded instance never answers a truthy argument with "Model not
    loaded". *)
Lemma loaded_never_not_loaded (env : Env) (m : Model) (t : list Event)
      (x : PyArg) :
  _is_loaded m = true ->
  truthy x = true ->
  fst (run (process_input env x) m t)
  <> Returns (VDict [("error", VStr "Model not loaded")]).
Proof.
  intros Hl Ht. rewrite (process_input_truthy env x m t Ht), Hl.
  destruct (cls m) eqn:Hc.
  - rewrite (process_body_text env x m t Hc), text_body_eval.
    destruct (TextProcessorMixin.clean_text x); [| discriminate].
    destruct (Nat.leb _ _); [| discriminate].
    destruct (is_mock _ _); [discriminate |].
    destruct (run (call_pipeline _ _) m t) as [[r | e] s']; discriminate.
  - rewrite (process_body_image env x m t Hc).
    destruct x as [| b | z | s | b | o]; try discriminate.
    rewrite image_body_eval. cbv zeta.
    destruct (PyStr.any_endswith _ _); [| discriminate].
    destruct (pil_open env t (AStr s)); [| discriminate].
    destruct (is_mock _ _); [discriminate |].
    destruct (run (call_pipeline _ _) m _) as [[r | e] s']; discriminate.
Qed.

(** X13: [process_input] with a truthy argument never raises on an
    instance [load_model] has run on, in any state and on any machines.
    When the terminal of the loading machine could encode the success
    line, it never answers "Model not loaded"; when it could not, the
    instance was left not loaded and that is the answer to every truthy
    argument. *)
Theorem load_then_process (env env' : Env) (m : Model) (t t' : list Event)
        (x : PyArg) :
  truthy x = true ->
  let loaded := self (snd (run (load_model env tt) m t)) in
  let line := "Successfully loaded " ++ _model_name m in
  exists d,
    fst (run (process_input env' x) loaded t') = Returns (VDict d) /\
    (prints env line = true -> d <> [("error", VStr "Model not loaded")]) /\
    (prints env line = false -> d = [("error", VStr "Model not loaded")]).
Proof.
  intros Ht. cbv zeta. rewrite load_model_eval. cbv zeta.
  destruct (prints_cases env ("Successfully loaded " ++ _model_name m))
    as [[Hp He] | [Hp [e He]]]; rewrite Hp, He; cbn [snd self].
  - set (m' := with_load m _).
    assert (Hl : _is_loaded m' = true) by reflexivity.
    pose proof (loaded_never_not_loaded env' m' t' x Hl Ht) as Hne.
    rewrite (process_input_truthy env' x m' t' Ht), Hl in *.
    destruct (run (process_body env' x) m' t') as [[v | e] s'] eqn:Hb.
    + destruct (process_body_dict _ _ _ _ _ _ Hb) as [d ->].
      exists d. split; [reflexivity |].
      split; [| intros H; discriminate H]. intros _ ->. now apply Hne.
    + eexists. split; [reflexivity |].
      split; [| intros H; discriminate H]. intros _ H. apply Hne.
      cbn [fst]. unfold error_result in *. now rewrite H.
  - set (m' := with_failed_load m _).
    assert (Hl : _is_loaded m' = false) by reflexivity.
    rewrite (process_input_truthy env' x m' t' Ht), Hl.
    eexists. split; [reflexivity |].
    split; [intros H; discriminate H | reflexivity].
Qed.

Lemma load_then_process_witness :
  (exists d,
      fst (run (process_input env_images (AStr "dog.png"))
             (self (snd (run (load_model env_offline tt)
                           ImageClassificationModel.__init__ []))) [])
      = Returns (VDict d) /\
      d <> [("error", VStr "Model not loaded")]) /\
  fst (run (process_input env_ascii (AStr "fine"))
         (self (snd (run (load_model env_ascii tt) cafe_text []))) [])
  = Returns (VDict [("error", VStr "Model not loaded")]).
Proof.
  split.
  - destruct (load_then_process env_offline env_images
                ImageClassificationModel.__init__ [] [] (AStr "dog.png")
                eq_refl) as (d & Hrun & Hyes & _).
    exists d. split; [exact Hrun | apply Hyes; reflexivity].
  - destruct (load_then_process env_ascii env_ascii cafe_text [] []
                (AStr "fine") eq_refl) as (d & Hrun & _ & Hno).
    rewrite Hrun, (Hno eq_refl). reflexivity.
Defined.

Lemma get_model_info_eval (m : Model) (t : list Event) :
  run (get_model_info tt) m t =
  (Returns
     (dict_update
        [("name", VStr (_model_name m));
         ("category", VStr (_category m));
         ("status", VStr (if _is_loaded m then "Loaded" else "Not Loaded"))]
        match cls m with
        | TextCls =>
            [("description", VStr "DistilBERT sentiment analysis model");
             ("input_type", VStr "Text");
             ("output_type",
              VStr "Sentiment classification (POSITIVE/NEGATIVE)");
             ("use_case",
              VStr "Analyze sentiment of text input, reviews, comments")]
        | ImageCls =>
            [("description",
              VStr "Vision Transformer for image classification");
             ("input_type", VStr "Image (JPG, PNG, BMP, GIF)");
             ("output_type",
              VStr "Object classification with confidence scores");
             ("use_case",
              VStr "Identify objects, animals, scenes in images")]
        end),
   mkSt m (t ++ [EvTiming "get_model_info"])).
Proof.
  unfold run, get_model_info. cbn [self]. destruct (cls m); reflexivity.
Qed.

(** X14: [get_model_info] of either class never raises, leaves the
    instance as it was and prints one timing line; its [dict] has the
    keys name, category, status, description, input_type, output_type and
    use_case in this order; name and category are the current attributes
    and status is "Loaded" exactly when the loaded flag is set; a second
    call, at any later time, returns the same [dict]. *)
Theorem get_model_info_describes (m : Model) (t : list Event) :
  exists d,
    run (get_model_info tt) m t
    = (Returns d, mkSt m (t ++ [EvTiming "get_model_info"])) /\
    map fst d = ["name"; "category"; "status"; "description"; "input_type";
                 "output_type"; "use_case"] /\
    dict_get d "name" = Some (VStr (_model_name m)) /\
    dict_get d "category" = Some (VStr (_category m)) /\
    dict_get d "status"
    = Some (VStr (if _is_loaded m then "Loaded" else "Not Loaded")) /\
    (forall t', fst (run (get_model_info tt) m t') = Returns d).
Proof.
  eexists. split; [apply get_model_info_eval |].
  repeat split; try (intros t'; rewrite get_model_info_eval);
    destruct (cls m); reflexivity.
Qed.

(** X15: every identifier listed by [get_available_models] is accepted by
    [create_model], and the instance it builds is not loaded: its status
    reads "Not Loaded", its category is the one of its class, and
    [process_input] answers any truthy argument with "Model not loaded"
    until [load_model] is called. *)
Theorem listed_model_is_created_unloaded (model_type : string) (h : Heap) :
  In model_type ModelFactory.get_available_models ->
  exists r h' m,
    ModelFactory.create_model model_type h = (Returns r, h') /\
    heap_get h' r = Some m /\
    _is_loaded m = false /\
    _category m = _category (construct (cls m)) /\
    (forall t, exists d st,
        run (get_model_info tt) m t = (Returns d, st) /\
        dict_get d "status" = Some (VStr "Not Loaded")) /\
    (forall env x t,
        truthy x = true ->
        fst (run (process_input env x) m t)
        = Returns (VDict [("error", VStr "Model not loaded")])).
Proof.
  intros Hin. unfold ModelFactory.get_available_models in Hin.
  apply in_map_iff in Hin. destruct Hin as ([k c] & Hk & Hin).
  cbn [fst] in Hk. subst k.
  destruct (proj2 (create_model_outcomes model_type h) c Hin)
    as (r & h' & Hrun & Hget & _ & _ & _).
  exists r, h', (construct c).
  split; [exact Hrun |]. split; [exact Hget |].
  split; [destruct c; reflexivity |].
  split; [destruct c; reflexivity |]. split.
  - intros t. eexists _, _. split; [apply get_model_info_eval |].
    destruct c; reflexivity.
  - intros env x t Ht.
    rewrite (process_input_truthy env x _ t Ht).
    destruct c; reflexivity.
Qed.

Lemma listed_model_is_created_unloaded_witness :
  exists r h' m,
    ModelFactory.create_model "Image Classification" [] = (Returns r, h') /\
    heap_get h' r = Some m /\
    _is_loaded m = false.
Proof.
  destruct (listed_model_is_created_unloaded "Image Classification" [])
    as (r & h' & m & Hrun & Hget & Hl & _).
  - right. left. reflexivity.
  - exists r, h', m. auto.
Defined.

(** X16: after [load_model] the name and category entries of an
    instance are those it had before, and its status reads "Loaded" when
    the terminal could encode the success line and "Not Loaded" when it
    could not. *)
Theorem status_follows_load (env : Env) (m : Model) (t t' : list Event) :
  let line := "Successfully loaded " ++ _model_name m in
  exists d,
    fst (run (get_model_info tt)
           (self (snd (run (load_model env tt) m t))) t')
    = Returns d /\
    dict_get d "status"
    = Some (VStr (if prints env line then "Loaded" else "Not Loaded")) /\
    dict_get d "name" = Some (VStr (_model_name m)) /\
    dict_get d "category" = Some (VStr (_category m)).
Proof.
  cbv zeta. rewrite load_model_eval. cbv zeta.
  destruct (prints_cases env ("Successfully loaded " ++ _model_name m))
    as [[Hp He] | [Hp [e He]]]; rewrite Hp, He; cbn [snd self];
    rewrite get_model_info_eval; cbn [fst];
    (eexists; split; [reflexivity |]);
    unfold with_load, with_failed_load;
    cbn [cls _model_name _category _is_loaded];
    destruct (cls m); repeat split; reflexivity.
Qed.

Lemma status_follows_load_witness :
  (exists d,
      fst (run (get_model_info tt)
             (self (snd (run (load_model env_offline tt)
                           TextClassificationModel.__init__ []))) [])
      = Returns d /\
      dict_get d "status" = Some (VStr "Loaded")) /\
  (exists d,
      fst (run (get_model_info tt)
             (self (snd (run (load_model env_ascii tt) cafe_text []))) [])
      = Returns d /\
      dict_get d "status" = Some (VStr "Not Loaded")).
Proof.
  split.
  - destruct (status_follows_load env_offline
                TextClassificationModel.__init__ [] [])
      as (d & Hrun & Hst & _).
    exists d. split; [exact Hrun | exact Hst].
  - destruct (status_follows_load env_ascii cafe_text [] [])
      as (d & Hrun & Hst & _).
    exists d. split; [exact Hrun | exact Hst].
Defined.

(* ===================================================================== *)
(** ** The callers in the window *)
(* ===================================================================== *)

Lemma model_info_of_eval (m : Model) (t : list Event) :
  run (get_model_info tt) m t =
  (Returns (model_info_of m), mkSt m (t ++ [EvTiming "get_model_info"])).
Proof.
  unfold model_info_of. now rewrite !get_model_info_eval.
Qed.

Lemma model_info_of_category (m : Model) :
  dict_get_default (model_info_of m) "category" (VStr "")
  = VStr (_category m).
Proof.
  unfold model_info_of. rewrite get_model_info_eval. cbn [fst].
  destruct (cls m); reflexivity.
Qed.

Lemma on_current_get_model_info (a : AppSt) (m : Model) :
  _current_model a = Some m ->
  on_current_model "get_model_info" (get_model_info tt) a
  = (Returns (model_info_of m), described a m).
Proof.
  intros Hm. unfold on_current_model. rewrite Hm.
  pose proof (model_info_of_eval m (world a)) as H. unfold run in H.
  now rewrite H.
Qed.

Lemma on_current_process_input (env : Env) (x : PyArg) (a : AppSt)
      (m : Model) :
  _current_model a = Some m ->
  on_current_model "process_input" (process_input env x) a
  = (fst (run (process_input env x) m (world a)),
     mkApp (Some m)
           (trace (snd (run (process_input env x) m (world a))))
           (screen a)).
Proof.
  intros Hm. unfold on_current_model, run. rewrite Hm.
  pose proof (keeps_process_input env x (mkSt m (world a))) as Hk.
  cbn [self] in Hk.
  destruct (process_input env x (mkSt m (world a))) as [o s'].
  cbn [fst snd] in *. now rewrite Hk.
Qed.

(** What [_validate_input_compatibility] answers when there is a current
    model: the test is on the lowered category. *)
Lemma validate_input_compatibility_eval (d : InputData) (a : AppSt)
      (m : Model) :
  _current_model a = Some m ->
  MainApplication._validate_input_compatibility d a =
  match input_getitem d "type" with
  | Raises e => (Raises e, described a m)
  | Returns ty =>
      if arg_eq_str ty "text"
         && negb (PyStr.contains "text" (PyStr.lower (_category m)))
      then (Returns false, showing (described a m) refuses_text)
      else if arg_eq_str ty "image"
              && negb (PyStr.contains "image" (PyStr.lower (_category m)))
      then (Returns false, showing (described a m) refuses_image)
      else (Returns true, described a m)
  end.
Proof.
  intros Hm. unfold MainApplication._validate_input_compatibility, gbind.
  rewrite (on_current_get_model_info a m Hm), model_info_of_category.
  cbn [val_lower glift].
  destruct (input_getitem d "type") as [ty | e]; [| reflexivity].
  destruct (arg_eq_str ty "text" && _); [reflexivity |].
  destruct (arg_eq_str ty "image" && _); reflexivity.
Qed.

(** What the [try] block of [_process_with_model] does when there is a
    current model. *)
Lemma process_with_model_body_eval (env : Env) (d : InputData) (n : Z)
      (a : AppSt) (m : Model) :
  _current_model a = Some m ->
  MainApplication.process_with_model_body env d n a =
  match input_getitem d "type" with
  | Raises e => (Raises e, described a m)
  | Returns ty =>
      if arg_eq_str ty "text"
         && negb (PyStr.contains "text" (PyStr.lower (_category m)))
      then (Returns tt, showing (described a m) refuses_text)
      else if arg_eq_str ty "image"
              && negb (PyStr.contains "image" (PyStr.lower (_category m)))
      then (Returns tt, showing (described a m) refuses_image)
      else if arg_eq_str ty "text" || arg_eq_str ty "image"
      then
        match input_getitem d "data" with
        | Raises e => (Raises e, described a m)
        | Returns x =>
            let after :=
              mkApp (Some m)
                (trace (snd (run (process_input env x) m
                               (world (described a m)))))
                (screen a) in
            match fst (run (process_input env x) m (world (described a m)))
            with
            | Returns r =>
                match arg_json ty with
                | Returns input_type =>
                    (Returns tt,
                     showing after
                       (DisplayOutput [("model_number", VInt n);
                                       ("input_type", input_type);
                                       ("model_name", VStr (_model_name m));
                                       ("result", r)]))
                | Raises e => (Raises e, after)
                end
            | Raises e => (Raises e, after)
            end
        end
      else
        (Returns tt,
         showing (described a m) (ShowError "Error" "Unsupported input type"))
  end.
Proof.
  intros Hm. unfold MainApplication.process_with_model_body.
  unfold gbind at 1. rewrite (validate_input_compatibility_eval d a m Hm).
  destruct (input_getitem d "type") as [ty | e] eqn:Hty; [| reflexivity].
  destruct (arg_eq_str ty "text" && _); [reflexivity |].
  destruct (arg_eq_str ty "image" && _); [reflexivity |].
  cbn [negb]. unfold gbind at 1. unfold glift at 1.
  assert (Hd : _current_model (described a m) = Some m) by reflexivity.
  destruct (arg_eq_str ty "text") eqn:Htext; cbn [orb].
  - unfold gbind, glift.
    destruct (input_getitem d "data") as [x | e]; [| reflexivity].
    rewrite (on_current_process_input env x _ m Hd).
    destruct (fst (run (process_input env x) m _)) as [r | e];
      [| reflexivity].
    unfold on_current_model, AIModelBase.model_name, get_attr.
    cbn [_current_model world screen self trace].
    destruct (arg_json ty); reflexivity.
  - unfold gbind, glift.
    destruct (arg_eq_str ty "image"); [| reflexivity].
    destruct (input_getitem d "data") as [x | e]; [| reflexivity].
    rewrite (on_current_process_input env x _ m Hd).
    destruct (fst (run (process_input env x) m _)) as [r | e];
      [| reflexivity].
    unfold on_current_model, AIModelBase.model_name, get_attr.
    cbn [_current_model world screen self trace].
    destruct (arg_json ty); reflexivity.
Qed.

Lemma process_with_model_eval (env : Env) (d : InputData) (n : Z)
      (a : AppSt) :
  MainApplication._process_with_model env d n a =
  match _current_model a with
  | None =>
      (Returns tt, showing a (ShowWarning "Warning" "Please load a model first"))
  | Some m =>
      if _is_loaded m then
        match MainApplication.process_with_model_body env d n a with
        | (Returns u, a') => (Returns u, a')
        | (Raises e, a') =>
            (Returns tt,
             showing a'
               (DisplayOutput
                  [("error", VStr (exc_str e));
                   ("model_name",
                    VStr match _current_model a' with
                         | Some m' => _model_name m'
                         | None => "Unknown"
                         end)]))
        end
      else
        (Returns tt, showing a (ShowWarning "Warning" "Model is not loaded"))
  end.
Proof.
  unfold MainApplication._process_with_model, gbind at 1, current_model.
  destruct (_current_model a) as [m |]; [| reflexivity].
  destruct (_is_loaded m); [| reflexivity].
  cbn [negb]. unfold gtry.
  destruct (MainApplication.process_with_model_body env d n a)
    as [[u | e] a']; reflexivity.
Qed.

Lemma truthy_returns_dict (env : Env) (m : Model) (t : list Event)
      (x : PyArg) :
  truthy x = true ->
  exists d, fst (run (process_input env x) m t) = Returns (VDict d).
Proof.
  intros Ht. rewrite (process_input_truthy env x m t Ht).
  destruct (_is_loaded m); [| eexists; reflexivity].
  destruct (run (process_body env x) m t) as [[v | e] s'] eqn:Hb.
  - destruct (process_body_dict _ _ _ _ _ _ Hb) as [d ->]. now exists d.
  - eexists; reflexivity.
Qed.

(** X17: [_process_with_model] never raises, whatever the dictionary it
    is given; each call puts exactly one thing on the screen, a warning,
    an error box or an output; and the current model is left with the
    attributes it had. *)
Theorem process_with_model_shows_one (env : Env) (d : InputData) (n : Z)
        (a : AppSt) :
  exists ev a',
    MainApplication._process_with_model env d n a = (Returns tt, a') /\
    screen a' = (screen a ++ [ev])%list /\
    _current_model a' = _current_model a.
Proof.
  rewrite process_with_model_eval.
  destruct (_current_model a) as [m |] eqn:Hm.
  2:{ eexists _, _. split; [reflexivity |]. split; [reflexivity |]. exact Hm. }
  destruct (_is_loaded m).
  2:{ eexists _, _. split; [reflexivity |]. split; [reflexivity |]. exact Hm. }
  rewrite (process_with_model_body_eval env d n a m Hm).
  destruct (input_getitem d "type") as [ty | e];
    [| eexists _, _; repeat split; reflexivity].
  destruct (arg_eq_str ty "text" && _);
    [eexists _, _; repeat split; reflexivity |].
  destruct (arg_eq_str ty "image" && _);
    [eexists _, _; repeat split; reflexivity |].
  destruct (arg_eq_str ty "text" || arg_eq_str ty "image");
    [| eexists _, _; repeat split; reflexivity].
  destruct (input_getitem d "data") as [x | e];
    [| eexists _, _; repeat split; reflexivity].
  cbv zeta.
  destruct (fst (run (process_input env x) m _)) as [r | e];
    [destruct (arg_json ty) |];
    eexists _, _; repeat split; reflexivity.
Qed.

(** X18: without a current model, or with one whose loaded flag is unset,
    [_process_with_model] only shows its warning: the model layer is not
    called, so the "Model not loaded" answer of [process_input] is never
    what the window displays. *)
Theorem process_with_model_guards (env : Env) (d : InputData) (n : Z)
        (a : AppSt) :
  (_current_model a = None ->
   MainApplication._process_with_model env d n a
   = (Returns tt,
      showing a (ShowWarning "Warning" "Please load a model first"))) /\
  (forall m,
      _current_model a = Some m -> _is_loaded m = false ->
      MainApplication._process_with_model env d n a
      = (Returns tt,
         showing a (ShowWarning "Warning" "Model is not loaded"))).
Proof.
  rewrite process_with_model_eval. split.
  - intros ->. reflexivity.
  - intros m -> ->. reflexivity.
Qed.

Lemma process_with_model_guards_witness :
  MainApplication._process_with_model env_offline
    [("type", AStr "text"); ("data", AStr "good")] 1
    (app_with TextClassificationModel.__init__)
  = (Returns tt,
     showing (app_with TextClassificationModel.__init__)
       (ShowWarning "Warning" "Model is not loaded")).
Proof.
  apply (proj2 (process_with_model_guards env_offline _ 1
                  (app_with TextClassificationModel.__init__))
               TextClassificationModel.__init__); reflexivity.
Defined.

Lemma accepted_type_passes (ty cat : string) :
  ty = "text" \/ ty = "image" ->
  PyStr.contains ty cat = true ->
  arg_eq_str (AStr ty) "text" && negb (PyStr.contains "text" cat) = false /\
  arg_eq_str (AStr ty) "image" && negb (PyStr.contains "image" cat) = false /\
  arg_eq_str (AStr ty) "text" || arg_eq_str (AStr ty) "image" = true.
Proof.
  intros [-> | ->] H; cbn [arg_eq_str String.eqb Ascii.eqb Bool.eqb andb orb];
    rewrite H; auto.
Qed.

(** X19: the [ValueError] that [process_input] raises for a falsy
    argument does not escape the window: with a loaded current model and
    an input type its category accepts, [_process_with_model] displays
    [{"error": "Input cannot be empty", "model_name": name}]. *)
Theorem process_with_model_reports_empty_input (env : Env) (n : Z)
        (a : AppSt) (m : Model) (ty : string) (x : PyArg) :
  _current_model a = Some m ->
  _is_loaded m = true ->
  ty = "text" \/ ty = "image" ->
  PyStr.contains ty (PyStr.lower (_category m)) = true ->
  truthy x = false ->
  MainApplication._process_with_model env
    [("type", AStr ty); ("data", x)] n a
  = (Returns tt,
     showing (described a m)
       (DisplayOutput [("error", VStr "Input cannot be empty");
                       ("model_name", VStr (_model_name m))])).
Proof.
  intros Hm Hl Hty Hcat Hx.
  rewrite process_with_model_eval, Hm, Hl.
  rewrite (process_with_model_body_eval env _ n a m Hm).
  cbn [input_getitem String.eqb Ascii.eqb Bool.eqb].
  destruct (accepted_type_passes ty _ Hty Hcat) as (H1 & H2 & H3).
  rewrite H1, H2, H3. cbv zeta.
  rewrite (process_input_falsy env x m _ Hx). reflexivity.
Qed.

Lemma process_with_model_reports_empty_input_witness :
  MainApplication._process_with_model env_offline
    [("type", AStr "text"); ("data", AStr "")] 1 (app_with loaded_text)
  = (Returns tt,
     showing (described (app_with loaded_text) loaded_text)
       (DisplayOutput [("error", VStr "Input cannot be empty");
                       ("model_name", VStr (_model_name loaded_text))])).
Proof.
  apply (process_with_model_reports_empty_input env_offline 1
           (app_with loaded_text) loaded_text "text" (AStr "")
           eq_refl eq_refl (or_introl eq_refl) eq_refl eq_refl).
Defined.

(** X20: a loaded model that still has the category of its class refuses
    the input type of the other class: the text model answers an image
    input, and the image model a text input, with the error box of
    [_validate_input_compatibility], and [process_input] is not called,
    whatever the data. *)
Theorem mismatched_input_refused (env : Env) (n : Z) (a : AppSt)
        (m : Model) (x : PyArg) :
  _current_model a = Some m ->
  _is_loaded m = true ->
  _category m = _category (construct (cls m)) ->
  MainApplication._process_with_model env
    [("type", AStr match cls m with
                   | TextCls => "image"
                   | ImageCls => "text"
                   end);
     ("data", x)] n a
  = (Returns tt,
     showing (described a m)
       match cls m with
       | TextCls => refuses_image
       | ImageCls => refuses_text
       end).
Proof.
  intros Hm Hl Hcat.
  rewrite process_with_model_eval, Hm, Hl.
  rewrite (process_with_model_body_eval env _ n a m Hm), Hcat.
  destruct (cls m); reflexivity.
Qed.

Lemma mismatched_input_refused_witness :
  MainApplication._process_with_model env_images
    [("type", AStr "image"); ("data", AStr "dog.png")] 2
    (app_with loaded_text)
  = (Returns tt,
     showing (described (app_with loaded_text) loaded_text) refuses_image).
Proof.
  apply (mismatched_input_refused env_images 2 (app_with loaded_text)
           loaded_text (AStr "dog.png") eq_refl eq_refl eq_refl).
Defined.

(** X21: with a loaded current model, an input type its category accepts
    and truthy data, [_process_with_model] calls [process_input] once,
    after the model has described itself, and displays what it returned,
    a [dict], together with the model number, the input type and the
    model name. *)
Theorem process_with_model_displays_result (env : Env) (n : Z) (a : AppSt)
        (m : Model) (ty : string) (x : PyArg) :
  _current_model a = Some m ->
  _is_loaded m = true ->
  ty = "text" \/ ty = "image" ->
  PyStr.contains ty (PyStr.lower (_category m)) = true ->
  truthy x = true ->
  exists r st,
    run (process_input env x) m (world a ++ [EvTiming "get_model_info"])
    = (Returns (VDict r), st) /\
    MainApplication._process_with_model env
      [("type", AStr ty); ("data", x)] n a
    = (Returns tt,
       mkApp (Some m) (trace st)
         (screen a ++ [DisplayOutput [("model_number", VInt n);
                                      ("input_type", VStr ty);
                                      ("model_name", VStr (_model_name m));
                                      ("result", VDict r)]])).
Proof.
  intros Hm Hl Hty Hcat Hx.
  rewrite process_with_model_eval, Hm, Hl.
  rewrite (process_with_model_body_eval env _ n a m Hm).
  cbn [input_getitem String.eqb Ascii.eqb Bool.eqb].
  destruct (accepted_type_passes ty _ Hty Hcat) as (H1 & H2 & H3).
  rewrite H1, H2, H3. cbv zeta. cbn [described world].
  destruct (truthy_returns_dict env m
              (world a ++ [EvTiming "get_model_info"]) x Hx) as [r Hr].
  destruct (run (process_input env x) m _) as [o st]. cbn [fst snd] in *.
  subst o. exists r, st. split; reflexivity.
Qed.

Lemma process_with_model_displays_result_witness :
  exists r st,
    run (process_input env_offline (AStr "good"))
        loaded_text [EvTiming "get_model_info"]
    = (Returns (VDict r), st) /\
    MainApplication._process_with_model env_offline
      [("type", AStr "text"); ("data", AStr "good")] 1 (app_with loaded_text)
    = (Returns tt,
       mkApp (Some loaded_text) (trace st)
         [DisplayOutput [("model_number", VInt 1);
                         ("input_type", VStr "text");
                         ("model_name", VStr (_model_name loaded_text));
                         ("result", VDict r)]]).
Proof.
  apply (process_with_model_displays_result env_offline 1
           (app_with loaded_text) loaded_text "text" (AStr "good")
           eq_refl eq_refl (or_introl eq_refl) eq_refl eq_refl).
Defined.

(** X22: an input type that is neither "text" nor "image" passes
    [_validate_input_compatibility] but is stopped by
    [_process_with_model] itself, with the "Unsupported input type" box;
    [process_input] is not called and nothing is displayed as output. *)
Theorem unsupported_input_type_stopped (env : Env) (n : Z) (a : AppSt)
        (m : Model) (ty x : PyArg) :
  _current_model a = Some m ->
  _is_loaded m = true ->
  arg_eq_str ty "text" = false ->
  arg_eq_str ty "image" = false ->
  MainApplication._validate_input_compatibility
    [("type", ty); ("data", x)] a = (Returns true, described a m) /\
  MainApplication._process_with_model env [("type", ty); ("data", x)] n a
  = (Returns tt,
     showing (described a m) (ShowError "Error" "Unsupported input type")).
Proof.
  intros Hm Hl Htext Himage. split.
  - rewrite (validate_input_compatibility_eval _ a m Hm).
    cbn [input_getitem String.eqb Ascii.eqb Bool.eqb].
    now rewrite Htext, Himage.
  - rewrite process_with_model_eval, Hm, Hl.
    rewrite (process_with_model_body_eval env _ n a m Hm).
    cbn [input_getitem String.eqb Ascii.eqb Bool.eqb].
    now rewrite Htext, Himage.
Qed.

Lemma unsupported_input_type_stopped_witness :
  MainApplication._process_with_model env_offline
    [("type", AStr "audio"); ("data", AStr "song.mp3")] 1
    (app_with loaded_text)
  = (Returns tt,
     showing (described (app_with loaded_text) loaded_text)
       (ShowError "Error" "Unsupported input type")).
Proof.
  apply (unsupported_input_type_stopped env_offline 1 (app_with loaded_text)
           loaded_text (AStr "audio") (AStr "song.mp3")
           eq_refl eq_refl eq_refl eq_refl).
Defined.

(** The three outcomes of [_get_input_data]. *)
Lemma get_input_data_cases (w : InputPanel.Widgets) (a : AppSt) :
  match InputPanel._get_input_data w a with
  | (Returns (Some d), a') =>
      a' = a /\
      exists ty data,
        d = [("type", AStr ty); ("data", AStr data)] /\
        data <> "" /\
      (ty = "text" /\ InputPanel._input_type w = "Text" /\
         data = PyStr.strip (InputPanel._text_entry w)
         \/ ty = "image" /\ InputPanel._input_type w <> "Text" /\
            data = InputPanel._input_file_path w)
  | (Returns None, a') =>
      exists message,
        a' = showing a (ShowWarning "Warning" message) /\
      (InputPanel._input_type w = "Text" /\
         blank (InputPanel._text_entry w) = true
         \/ InputPanel._input_type w <> "Text" /\
            InputPanel._input_file_path w = "")
  | (Raises _, _) => False
  end.
Proof.
  unfold InputPanel._get_input_data.
  destruct (String.eqb_spec (InputPanel._input_type w) "Text") as [Hty | Hty].
  - destruct (PyStr.strip (InputPanel._text_entry w)) as [|c r] eqn:Hs;
      cbn [truthy String.eqb negb].
    + eexists. split; [reflexivity |]. left. split; [exact Hty |].
      now apply strip_blank_iff.
    + split; [reflexivity |]. eexists _, _. split; [reflexivity |].
      split; [discriminate |]. left. auto.
  - destruct (InputPanel._input_file_path w) as [|c r] eqn:Hs;
      cbn [truthy String.eqb negb].
    + eexists. split; [reflexivity |]. right. auto.
    + split; [reflexivity |]. eexists _, _. split; [reflexivity |].
      split; [discriminate |]. right. auto.
Qed.

(** X23: [_get_input_data] never hands over empty data: what it returns
    is either [None], after one warning, when the text is blank in text
    mode or no file is selected in image mode, or a dictionary whose data
    is a non-empty string, the stripped text or the selected path. *)
Theorem get_input_data_never_empty (w : InputPanel.Widgets) (a : AppSt) :
  match InputPanel._get_input_data w a with
  | (Returns (Some d), a') =>
      a' = a /\
      exists ty data,
        d = [("type", AStr ty); ("data", AStr data)] /\
        data <> "" /\
        (ty = "text" /\ InputPanel._input_type w = "Text" /\
         data = PyStr.strip (InputPanel._text_entry w)
         \/ ty = "image" /\ InputPanel._input_type w <> "Text" /\
            data = InputPanel._input_file_path w)
  | (Returns None, a') =>
      exists message,
        a' = showing a (ShowWarning "Warning" message) /\
        (InputPanel._input_type w = "Text" /\
         blank (InputPanel._text_entry w) = true
         \/ InputPanel._input_type w <> "Text" /\
            InputPanel._input_file_path w = "")
  | (Raises _, _) => False
  end.
Proof. apply get_input_data_cases. Qed.

(** X24: a click on a run button with a loaded current model never
    raises and shows exactly one thing: the warning for a missing input,
    the refusal of an input type the model does not accept, or an output
    that carries the [dict] returned by [process_input]; the output is
    never the report of an exception, so the [ValueError] for an empty
    input cannot be reached from the panel; the current model keeps its
    attributes. *)
Theorem click_shows_result_or_refusal (env : Env) (w : InputPanel.Widgets)
        (n : Z) (a : AppSt) (m : Model) :
  _current_model a = Some m ->
  _is_loaded m = true ->
  exists ev a',
    InputPanel._process_input env w n a = (Returns tt, a') /\
    screen a' = (screen a ++ [ev])%list /\
    _current_model a' = Some m /\
    ((exists message, ev = ShowWarning "Warning" message)
     \/ ev = refuses_text
     \/ ev = refuses_image
     \/ exists ty r,
         ev = DisplayOutput [("model_number", VInt n);
                             ("input_type", VStr ty);
                             ("model_name", VStr (_model_name m));
                             ("result", VDict r)]).
Proof.
  intros Hm Hl. unfold InputPanel._process_input, gbind.
  pose proof (get_input_data_cases w a) as Hget.
  destruct (InputPanel._get_input_data w a) as [[[d |] | e] a1];
    [| | contradiction].
  2:{ destruct Hget as (message & -> & _).
      eexists _, _. split; [reflexivity |]. split; [reflexivity |].
      split; [exact Hm |]. left. now exists message. }
  destruct Hget as (-> & ty & data & -> & Hdata & Hty).
  rewrite process_with_model_eval, Hm, Hl.
  rewrite (process_with_model_body_eval env _ n a m Hm).
  cbn [input_getitem String.eqb Ascii.eqb Bool.eqb].
  assert (Hty' : ty = "text" \/ ty = "image") by (destruct Hty; tauto).
  destruct (truthy_returns_dict env m (world (described a m)) (AStr data)
              (str_truthy data Hdata)) as [r Hr].
  destruct Hty' as [-> | ->];
    cbn [arg_eq_str String.eqb Ascii.eqb Bool.eqb andb orb];
    destruct (PyStr.contains _ (PyStr.lower (_category m)));
    cbn [negb]; cbv zeta; rewrite ?Hr;
    eexists _, _; (split; [reflexivity |]); (split; [reflexivity |]);
    (split; [reflexivity |]); eauto 7.
Qed.

Lemma click_shows_result_or_refusal_witness :
  exists ev a',
    InputPanel._process_input env_images
      (InputPanel.mkWidgets "Image" "" "photo_of_dog.png") 2
      (app_with loaded_image) = (Returns tt, a') /\
    screen a' = [ev] /\
    _current_model a' = Some loaded_image.
Proof.
  destruct (click_shows_result_or_refusal env_images
              (InputPanel.mkWidgets "Image" "" "photo_of_dog.png") 2
              (app_with loaded_image) loaded_image eq_refl eq_refl)
    as (ev & a' & Hrun & Hscreen & Hcur & _).
  exists ev, a'. split; [exact Hrun |]. split; [exact Hscreen | exact Hcur].
Defined.



(** X26: a call that passes the input under the parameter's name is never
    rejected as empty, whatever the argument, falsy ones included:
    [validate_input] sees no positional argument, so the call returns a
    [dict] and raises nothing, the "Model not loaded" answer when the
    loaded flag is unset. *)
Theorem keyword_call_is_never_rejected (env : Env) (m : Model)
        (t : list Event) (x : PyArg) :
  exists d st,
    run (process_input_keyword env x) m t = (Returns (VDict d), st) /\
    (_is_loaded m = false -> d = [("error", VStr "Model not loaded")]).
Proof.
  rewrite process_input_keyword_eval.
  destruct (_is_loaded m).
  - destruct (run (process_body env x) m t) as [[v | e] s'] eqn:Hb.
    + destruct (process_body_dict _ _ _ _ _ _ Hb) as [d ->].
      eexists _, _. split; [reflexivity |]. intros H. discriminate H.
    + eexists _, _. split; [reflexivity |]. intros H. discriminate H.
  - eexists _, _. split; [reflexivity |]. reflexivity.
Qed.
